(** * Predictions page: acquisition and orchestration logic

    A shallow embedding of the asynchronous functions of
    [src/pages/Predictions.tsx] ([initializePage],
    [generateTrendingStocksPredictions], [fetchPredictions],
    [fetchCurrentQuotes], [analyzeStock]) as computations over an explicit
    machine state: the React page state, the state of the remote services,
    the chronological list of remote calls and the console.

    The remote services (the [ai_predictions] table, the edge functions
    [ai-trading-analysis] and [yahoo-finance-data]) and the host clock are
    not part of the page; they are a parameter of every definition. *)

From Stdlib Require Import ZArith List String Ascii Bool Lia.
From Stdlib Require Import Floats.SpecFloat.
From stdpp Require Import gmap strings list.

Local Open Scope Z_scope.

(** ** JavaScript strings

    A string is held as its UTF-8 encoding, one [ascii] per byte (a lone
    surrogate as the three bytes of its code point).  Two strings are equal
    exactly when their encodings are.  The length and the white space of
    [trim] are ECMAScript's; the case mapping of [toUpperCase] is the
    host's Unicode table and is a parameter of the functions that use it. *)
Module JsString.

Definition code (c : ascii) : nat := nat_of_ascii c.

Definition isLowerAZ (c : ascii) : bool :=
  (97 <=? code c)%nat && (code c <=? 122)%nat.

Definition isUpperAZ (c : ascii) : bool :=
  (65 <=? code c)%nat && (code c <=? 90)%nat.

(** A byte that continues a code point. *)
Definition isContinuation (c : ascii) : bool :=
  (128 <=? code c)%nat && (code c <=? 191)%nat.

(** [s.length]: the number of UTF-16 code units, one per code point and two
    for a code point beyond U+FFFF (a first byte from 240 on). *)
Fixpoint jsLength (s : string) : nat :=
  match s with
  | EmptyString => 0
  | String c s' =>
      (if isContinuation c then 0 else if (240 <=? code c)%nat then 2 else 1)
      + jsLength s'
  end%nat.

(** The host's case mapping: [String.prototype.toUpperCase], which maps
    each code point by the Unicode table to one, two or three code points
    of no fewer code units, and so never shortens a text. *)
Record CaseMapping := {
  upper_of : string -> string;
  upper_grows : forall s, (jsLength s <= jsLength (upper_of s))%nat
}.

(** The white space and line terminators of one byte: TAB, LF, VT, FF, CR,
    SP. *)
Definition white1 (c : ascii) : bool :=
  ((9 <=? code c)%nat && (code c <=? 13)%nat) || (code c =? 32)%nat.

(** Of two bytes: U+00A0. *)
Definition white2 (c1 c2 : ascii) : bool :=
  (code c1 =? 194)%nat && (code c2 =? 160)%nat.

(** Of three bytes: U+1680, U+2000 to U+200A, U+2028, U+2029, U+202F,
    U+205F, U+3000 and U+FEFF. *)
Definition white3 (c1 c2 c3 : ascii) : bool :=
  ((code c1 =? 225)%nat && (code c2 =? 154)%nat && (code c3 =? 128)%nat)
  || ((code c1 =? 226)%nat && (code c2 =? 128)%nat
      && (((128 <=? code c3)%nat && (code c3 <=? 138)%nat)
          || (code c3 =? 168)%nat || (code c3 =? 169)%nat || (code c3 =? 175)%nat))
  || ((code c1 =? 226)%nat && (code c2 =? 129)%nat && (code c3 =? 159)%nat)
  || ((code c1 =? 227)%nat && (code c2 =? 128)%nat && (code c3 =? 128)%nat)
  || ((code c1 =? 239)%nat && (code c2 =? 187)%nat && (code c3 =? 191)%nat).

(** The text after one leading white-space code point, if there is one. *)
Definition whiteRest (s : string) : option string :=
  match s with
  | String c1 r1 =>
      if white1 c1 then Some r1
      else match r1 with
           | String c2 r2 =>
               if white2 c1 c2 then Some r2
               else match r2 with
                    | String c3 r3 => if white3 c1 c2 c3 then Some r3 else None
                    | EmptyString => None
                    end
           | EmptyString => None
           end
  | EmptyString => None
  end.

(** The text is empty or all white space. *)
Fixpoint isBlank (s : string) : bool :=
  match s with
  | EmptyString => true
  | String c1 r1 =>
      if white1 c1 then isBlank r1
      else match r1 with
           | String c2 r2 =>
               if white2 c1 c2 then isBlank r2
               else match r2 with
                    | String c3 r3 => if white3 c1 c2 c3 then isBlank r3 else false
                    | EmptyString => false
                    end
           | EmptyString => false
           end
  end.

Fixpoint trimStart (s : string) : string :=
  match s with
  | EmptyString => EmptyString
  | String c1 r1 =>
      if white1 c1 then trimStart r1
      else match r1 with
           | String c2 r2 =>
               if white2 c1 c2 then trimStart r2
               else match r2 with
                    | String c3 r3 => if white3 c1 c2 c3 then trimStart r3 else s
                    | EmptyString => s
                    end
           | EmptyString => s
           end
  end.

(** The text without the white space at its end: it ends where what
    is left is blank. *)
Fixpoint trimEnd (s : string) : string :=
  match s with
  | EmptyString => EmptyString
  | String c s' => if isBlank s then EmptyString else String c (trimEnd s')
  end.

(** [String.prototype.trim] *)
Definition trim (s : string) : string := trimEnd (trimStart s).

(** Truthiness of a string: only the empty string is falsy. *)
Definition truthy (s : string) : bool :=
  match s with EmptyString => false | String _ _ => true end.

Fixpoint all (p : ascii -> bool) (s : string) : bool :=
  match s with
  | EmptyString => true
  | String c s' => p c && all p s'
  end.

(** [/^[A-Z]{1,5}$/.test(s)]: the whole string is one to five letters of
    [A-Z] (no flag is set, so [^] and [$] are the ends of the input). *)
Definition test_A_Z_1_5 (s : string) : bool :=
  (1 <=? String.length s)%nat && (String.length s <=? 5)%nat && all isUpperAZ s.

Definition upperChar (c : ascii) : ascii :=
  if isLowerAZ c then ascii_of_nat (code c - 32) else c.

(** The upper-casing of a text of the Basic Latin block: [a] to [z] go to
    [A] to [Z]; every other byte is kept. *)
Fixpoint asciiUpper (s : string) : string :=
  match s with
  | EmptyString => EmptyString
  | String c s' => String (upperChar c) (asciiUpper s')
  end.

(** The upper-casing of a text of the Basic Latin and Latin-1 blocks, as
    the Unicode table has it: beyond [asciiUpper], U+00DF goes to [SS],
    U+00E0 to U+00FE but U+00F7 go 32 code points down, U+00FF goes to
    U+0178 and U+00B5 to U+039C.  Other code points are kept: this is the
    host's [toUpperCase] on such texts only. *)
Fixpoint latin1Upper (s : string) : string :=
  match s with
  | EmptyString => EmptyString
  | String c1 r1 =>
      match r1 with
      | String c2 r2 =>
          if (code c1 =? 195)%nat && (code c2 =? 159)%nat
          then String "S" (String "S" (latin1Upper r2))
          else if (code c1 =? 195)%nat && (code c2 =? 191)%nat
          then String (ascii_of_nat 197) (String (ascii_of_nat 184) (latin1Upper r2))
          else if (code c1 =? 194)%nat && (code c2 =? 181)%nat
          then String (ascii_of_nat 206) (String (ascii_of_nat 156) (latin1Upper r2))
          else if (code c1 =? 195)%nat && (160 <=? code c2)%nat
                  && (code c2 <=? 190)%nat && negb (code c2 =? 183)%nat
          then String c1 (String (ascii_of_nat (code c2 - 32)) (latin1Upper r2))
          else String (upperChar c1) (latin1Upper r1)
      | EmptyString => String (upperChar c1) EmptyString
      end
  end.

End JsString.

(** ** The host's [Date]

    Time values are milliseconds since the epoch.  The day and year
    arithmetic is ECMAScript's; the host time zone is a standard offset
    plus one hour while daylight-saving time is in force. *)
Module JsDate.

Definition msPerHour : Z := 3600000.
Definition msPerDay : Z := 86400000.

Definition Day (t : Z) : Z := t / msPerDay.

Definition DayFromYear (y : Z) : Z :=
  365 * (y - 1970) + (y - 1969) / 4 - (y - 1901) / 100 + (y - 1601) / 400.

Definition TimeFromYear (y : Z) : Z := msPerDay * DayFromYear y.

(** The largest [y] with [TimeFromYear y <= t]: an estimate from the mean
    length of a year, corrected by at most one. *)
Definition YearFromTime (t : Z) : Z :=
  let d := Day t in
  let y := 1970 + (400 * d) / 146097 in
  if d <? DayFromYear y then y - 1
  else if DayFromYear (y + 1) <=? d then y + 1
  else y.

Definition InLeapYear (y : Z) : bool :=
  DayFromYear (y + 1) - DayFromYear y =? 366.

(** Days of the year before the first of month [mn] (0 = January). *)
Definition daysBeforeMonth (leap : bool) (mn : Z) : Z :=
  let l := if leap then 1 else 0 in
  match mn with
  | 0 => 0
  | 1 => 31
  | 2 => 59 + l
  | 3 => 90 + l
  | 4 => 120 + l
  | 5 => 151 + l
  | 6 => 181 + l
  | 7 => 212 + l
  | 8 => 243 + l
  | 9 => 273 + l
  | 10 => 304 + l
  | _ => 334 + l
  end.

Definition MakeDay (year month date : Z) : Z :=
  let ym := year + month / 12 in
  let mn := month mod 12 in
  DayFromYear ym + daysBeforeMonth (InLeapYear ym) mn + date - 1.

Definition MakeDate (day time : Z) : Z := day * msPerDay + time.

Record TimeZone := {
  stdOffset : Z;
  (** is daylight-saving time in force at [t]?  The flag tells whether
      [t] is a UTC time value or a local one. *)
  inDaylightTime : Z -> bool -> bool
}.

Definition LocalTZA (tz : TimeZone) (t : Z) (isUTC : bool) : Z :=
  stdOffset tz + (if inDaylightTime tz t isUTC then msPerHour else 0).

Definition LocalTime (tz : TimeZone) (t : Z) : Z := t + LocalTZA tz t true.

Definition UTC (tz : TimeZone) (t : Z) : Z := t - LocalTZA tz t false.

(** [new Date(t).getFullYear()] *)
Definition getFullYear (tz : TimeZone) (t : Z) : Z :=
  YearFromTime (LocalTime tz t).

(** [new Date(year, month, date).getTime()]; a year from 0 to 99 stands
    for 1900 + year. *)
Definition newDate (tz : TimeZone) (year month date : Z) : Z :=
  let yr := if (0 <=? year) && (year <=? 99) then 1900 + year else year in
  UTC tz (MakeDate (MakeDay yr month date) 0).

(** A zone without daylight-saving time. *)
Definition fixedZone (offset : Z) : TimeZone :=
  {| stdOffset := offset; inDaylightTime := fun _ _ => false |}.

(** US Eastern time in 2025: UTC-5, and UTC-4 from 9 March 07:00 UTC
    (02:00 local standard time) to 2 November 06:00 UTC (02:00 local
    daylight time). *)
Definition newYork2025 : TimeZone :=
  {| stdOffset := -5 * msPerHour;
     inDaylightTime := fun t isUTC =>
       if isUTC then (1741503600000 <=? t) && (t <? 1762063200000)
       else (1741485600000 <=? t) && (t <? 1762048800000) |}.

End JsDate.

(** ** Data *)

(** A [number]: an IEEE 754 binary64 value, a sign with a mantissa and a
    binary exponent. *)
Definition number : Type := spec_float.

(** A value of type [any]. *)
#[warnings="-register-all"]
Inductive Json :=
| JNull
| JBool (b : bool)
| JNumber (x : number)
| JString (s : string)
| JArray (items : list Json)
| JObject (fields : list (string * Json)).

Inductive SignalType := buy | sell | hold.

Record Prediction := {
  id : string;
  symbol : string;
  predicted_price : number;
  confidence_score : number;
  signal_type : SignalType;
  created_at : string;
  expires_at : string;
  technical_indicators : Json
}.

Record CurrentQuote := {
  q_symbol : string;
  price : number;
  change : number;
  changePercent : number
}.

(** The fields the page reads of the replies of [yahoo-finance-data]. *)
Record QuotesPayload := { quotes : option (list CurrentQuote) }.
Record SearchHit := { hit_symbol : string }.
Record SearchPayload := { results : option (list SearchHit) }.

(** A thrown value. *)
Inductive JsError :=
| ServiceError (message : string)
| TypeError (message : string).

(** What awaiting a promise gives. *)
Inductive Settled (A : Type) :=
| Fulfilled (a : A)
| Rejected (e : JsError).
Arguments Fulfilled {A} a.
Arguments Rejected {A} e.

(** The [{ data, error }] object of the client library: either
    [{ data, error: null }] or [{ data: null, error }]. *)
Inductive Response (T : Type) :=
| Success (d : option T)
| Failure (e : JsError).
Arguments Success {T} d.
Arguments Failure {T} e.

Definition data {T} (r : Response T) : option T :=
  match r with Success d => d | Failure _ => None end.

Definition error {T} (r : Response T) : option JsError :=
  match r with Success _ => None | Failure e => Some e end.

(** The state held by the component's [useState] hooks that the modelled
    functions read or set.  [currentQuotes] is a plain object, held as the
    map of its own properties. *)
Record PageState := {
  searchSymbol : string;
  predictions : list Prediction;
  currentQuotes : gmap string CurrentQuote;
  loading : bool;
  analyzing : bool
}.

(** The state of a freshly mounted page. *)
Definition mounted : PageState :=
  {| searchSymbol := EmptyString; predictions := []; currentQuotes := ∅;
     loading := false; analyzing := false |}.

Inductive Call :=
| SelectPredictions                       (* from('ai_predictions') ... limit(10) *)
| InvokeAnalysis (sym : string)           (* ai-trading-analysis, analyze_stock *)
| InvokeQuotes (symbols : list string)    (* yahoo-finance-data, current_quotes *)
| InvokeSearch (query : string).          (* yahoo-finance-data, search_stocks *)

Inductive ConsoleArg :=
| Text (s : string)
| Symbols (l : list string)
| Thrown (e : JsError).

Inductive ConsoleEntry :=
| ConsoleLog (args : list ConsoleArg)
| ConsoleError (args : list ConsoleArg).

(** The remote services and the host, over their state [W].  A call may
    reject (the client throws) or fulfil with a [{ data, error }] object,
    and changes the services' state. *)
Record Backend (W : Type) := {
  select_predictions : W -> Settled (Response (list Prediction)) * W;
  analysis : string -> W -> Settled (Response Json) * W;
  current_quotes : list string -> W -> Settled (Response QuotesPayload) * W;
  search_stocks : string -> W -> Settled (Response SearchPayload) * W;
  Date_now : W -> Z;
  zone : JsDate.TimeZone
}.
Arguments select_predictions {W} _ _.
Arguments analysis {W} _ _ _.
Arguments current_quotes {W} _ _ _.
Arguments search_stocks {W} _ _ _.
Arguments Date_now {W} _ _.
Arguments zone {W} _.

Record Machine (W : Type) := {
  page : PageState;
  world : W;
  calls : list Call;
  console : list ConsoleEntry
}.
Arguments page {W} _.
Arguments world {W} _.
Arguments calls {W} _.
Arguments console {W} _.
Arguments Build_Machine {W} _ _ _ _.

(** ** Asynchronous computations *)

Definition Async (W A : Type) : Type := Machine W -> Settled A * Machine W.

Definition ret {W A} (a : A) : Async W A := fun m => (Fulfilled a, m).

Definition throw {W A} (e : JsError) : Async W A := fun m => (Rejected e, m).

Definition bind {W A B} (c : Async W A) (k : A -> Async W B) : Async W B :=
  fun m =>
    match c m with
    | (Fulfilled a, m') => k a m'
    | (Rejected e, m') => (Rejected e, m')
    end.

Declare Scope async_scope.
Delimit Scope async_scope with async.
Notation "x <- c ;; k" := (bind c (fun x => k))
  (at level 100, c at next level, right associativity) : async_scope.
Notation "c ;; k" := (bind c (fun _ => k))
  (at level 100, right associativity) : async_scope.
Local Open Scope async_scope.

(** [try { body } catch (e) { handler }] *)
Definition try_catch {W A} (body : Async W A) (handler : JsError -> Async W A)
  : Async W A :=
  fun m =>
    match body m with
    | (Fulfilled a, m') => (Fulfilled a, m')
    | (Rejected e, m') => handler e m'
    end.

(** [try { body } finally { cleanup }] *)
Definition try_finally {W A} (body : Async W A) (cleanup : Async W unit)
  : Async W A :=
  fun m =>
    match body m with
    | (r, m') =>
        match cleanup m' with
        | (Fulfilled _, m'') => (r, m'')
        | (Rejected e, m'') => (Rejected e, m'')
        end
    end.

(** [for (const x of l) { body }] *)
Fixpoint for_of {W A} (l : list A) (body : A -> Async W unit) : Async W unit :=
  match l with
  | [] => ret tt
  | x :: l' => body x ;; for_of l' body
  end.

Section Page.

Context {W : Type} (B : Backend W).

Definition set_page (f : PageState -> PageState) : Async W unit :=
  fun m => (Fulfilled tt,
            Build_Machine (f (page m)) (world m) (calls m) (console m)).

Definition setSearchSymbol (s : string) : Async W unit :=
  set_page (fun p => {| searchSymbol := s; predictions := predictions p;
                        currentQuotes := currentQuotes p;
                        loading := loading p; analyzing := analyzing p |}).

Definition setPredictions (ps : list Prediction) : Async W unit :=
  set_page (fun p => {| searchSymbol := searchSymbol p; predictions := ps;
                        currentQuotes := currentQuotes p;
                        loading := loading p; analyzing := analyzing p |}).

Definition setCurrentQuotes (qs : gmap string CurrentQuote) : Async W unit :=
  set_page (fun p => {| searchSymbol := searchSymbol p;
                        predictions := predictions p; currentQuotes := qs;
                        loading := loading p; analyzing := analyzing p |}).

Definition setLoading (b : bool) : Async W unit :=
  set_page (fun p => {| searchSymbol := searchSymbol p;
                        predictions := predictions p;
                        currentQuotes := currentQuotes p;
                        loading := b; analyzing := analyzing p |}).

Definition setAnalyzing (b : bool) : Async W unit :=
  set_page (fun p => {| searchSymbol := searchSymbol p;
                        predictions := predictions p;
                        currentQuotes := currentQuotes p;
                        loading := loading p; analyzing := b |}).

Definition console_log (args : list ConsoleArg) : Async W unit :=
  fun m => (Fulfilled tt,
            Build_Machine (page m) (world m) (calls m)
                          (console m ++ [ConsoleLog args])).

Definition console_error (args : list ConsoleArg) : Async W unit :=
  fun m => (Fulfilled tt,
            Build_Machine (page m) (world m) (calls m)
                          (console m ++ [ConsoleError args])).

(** Awaiting a remote call: the call is recorded, the services move on. *)
Definition await {A} (c : Call) (service : W -> Settled A * W) : Async W A :=
  fun m =>
    let '(r, w') := service (world m) in
    (r, Build_Machine (page m) w' (calls m ++ [c]) (console m)).

Definition now : Async W Z := fun m => (Fulfilled (Date_now B (world m)), m).

End Page.

(** ** The page's functions *)

(** [[...new Set(l)]]: the distinct elements of [l], each at the place of
    its first occurrence. *)
Fixpoint distinct_from (seen l : list string) : list string :=
  match l with
  | [] => []
  | x :: l' =>
      if bool_decide (x ∈ seen) then distinct_from seen l'
      else x :: distinct_from (x :: seen) l'
  end.

Definition spread_Set (l : list string) : list string := distinct_from [] l.

Definition allTrendingStocks : list (list string) :=
  [ ["AAPL"; "NVDA"; "TSLA"];
    ["MSFT"; "GOOGL"; "META"];
    ["AMZN"; "NFLX"; "AMD"];
    ["BABA"; "TSM"; "ASML"];
    ["JPM"; "V"; "MA"] ]%string.

(** [Math.floor((Date.now() - new Date(new Date().getFullYear(), 0, 0).getTime())
    / (1000 * 60 * 60 * 24))]; both clock reads are in one synchronous
    expression and see the same instant [t]. *)
Definition dayOfYear (tz : JsDate.TimeZone) (t : Z) : Z :=
  (t - JsDate.newDate tz (JsDate.getFullYear tz t) 0 0) / (1000 * 60 * 60 * 24).

(** [a[i]] for an integer [i]: [undefined] outside the array. *)
Definition index {A} (a : list A) (i : Z) : option A :=
  if i <? 0 then None else a !! Z.to_nat i.

(** [allTrendingStocks[dayOfYear % allTrendingStocks.length]]; [%] takes the
    sign of the dividend. *)
Definition todaysTrending (tz : JsDate.TimeZone) (t : Z) : option (list string) :=
  index allTrendingStocks
        (Z.rem (dayOfYear tz t) (Z.of_nat (length allTrendingStocks))).

(** [acc[key] = value] on a plain object, in its own properties.  The key
    [__proto__] is the accessor of [Object.prototype]: assigning an object
    to it sets the prototype of [acc] and adds no property. *)
Definition assign_own (acc : gmap string CurrentQuote) (key : string)
           (value : CurrentQuote) : gmap string CurrentQuote :=
  if bool_decide (key = "__proto__"%string) then acc else <[key := value]> acc.

Section Functions.

Context {W : Type} (B : Backend W).

(** The host's [String.prototype.toUpperCase]. *)
Context (unicode : JsString.CaseMapping).
Local Abbreviation toUpperCase := (JsString.upper_of unicode).

Local Open Scope async_scope.
Local Open Scope string_scope.

Definition fetchCurrentQuotes (symbols : list string) : Async W unit :=
  try_catch
    (r <- await (InvokeQuotes symbols) (current_quotes B symbols) ;;
     match error r with
     | Some e => throw e
     | None =>
         match data r with
         | None => throw (TypeError "Cannot read properties of null (reading 'quotes')")
         | Some d =>
             let quotesMap :=
               fold_left (fun acc quote => assign_own acc (q_symbol quote) quote)
                         (default [] (quotes d)) ∅ in
             setCurrentQuotes quotesMap
         end
     end)
    (fun e => console_error [Text "Error fetching current quotes:"; Thrown e]).

Definition fetchPredictions : Async W unit :=
  try_catch
    (r <- await SelectPredictions (select_predictions B) ;;
     match error r with
     | Some e => throw e
     | None =>
         setPredictions (default [] (data r)) ;;
         match data r with
         | Some (p :: ps) =>
             fetchCurrentQuotes (spread_Set (map symbol (p :: ps)))
         | _ => ret tt
         end
     end)
    (fun e => console_error [Text "Error fetching predictions:"; Thrown e]).

(** The body of the loop over today's symbols. *)
Definition analyzeTrending (sym : string) : Async W unit :=
  try_catch
    (_ <- await (InvokeAnalysis sym) (analysis B sym) ;; ret tt)
    (fun e => console_error
                [Text ("Error analyzing trending stock " ++ sym ++ ":"); Thrown e]).

Definition generateTrendingStocksPredictions : Async W unit :=
  t <- now B ;;
  match todaysTrending (zone B) t with
  | Some group =>
      console_log [Text "Generating predictions for trending stocks:"; Symbols group] ;;
      for_of group analyzeTrending ;;
      fetchPredictions
  | None =>
      (* the table has no such entry: [for ... of undefined] *)
      console_log [Text "Generating predictions for trending stocks:"] ;;
      throw (TypeError "undefined is not iterable")
  end.

Definition initializePage : Async W unit :=
  setLoading true ;;
  r <- await SelectPredictions (select_predictions B) ;;
  match data r with
  | Some (p :: ps) =>
      setPredictions (p :: ps) ;;
      fetchCurrentQuotes (spread_Set (map symbol (p :: ps)))
  | _ => generateTrendingStocksPredictions
  end ;;
  setLoading false.

(** Lines 147-166 of [analyzeStock]: the symbol to analyse for the text
    of the search box. *)
Definition resolveSymbol (searchSymbol : string) : Async W string :=
  let symbolToAnalyze := toUpperCase searchSymbol in
  if (5 <? JsString.jsLength searchSymbol)%nat
     || negb (JsString.test_A_Z_1_5 (toUpperCase searchSymbol))
  then
    try_catch
      (r <- await (InvokeSearch searchSymbol) (search_stocks B searchSymbol) ;;
       match data r with
       | Some {| results := Some (first :: _) |} =>
           console_log [Text ("Found symbol: " ++ hit_symbol first
                              ++ " for search: " ++ searchSymbol)] ;;
           ret (hit_symbol first)
       | _ => ret symbolToAnalyze
       end)
      (fun e =>
         console_log [Text "Search failed, trying original symbol:"; Thrown e] ;;
         ret symbolToAnalyze)
  else ret symbolToAnalyze.

(** The component function closes over the state of its render:
    [searchSymbol] is the text of the search box when the call starts. *)
Definition analyzeStock : Async W unit :=
  fun m0 =>
    let searchSymbol := searchSymbol (page m0) in
    (if negb (JsString.truthy (JsString.trim searchSymbol)) then ret tt
     else
       setAnalyzing true ;;
       try_finally
         (try_catch
            (symbolToAnalyze <- resolveSymbol searchSymbol ;;
             r <- await (InvokeAnalysis symbolToAnalyze)
                        (analysis B symbolToAnalyze) ;;
             match error r with
             | Some e => console_error [Text "Analysis error:"; Thrown e]
             | None => fetchPredictions ;; setSearchSymbol ""
             end)
            (fun e => console_error [Text "Error analyzing stock:"; Thrown e]))
         (setAnalyzing false)) m0.

End Functions.

(** ** Observations on a run *)

(** The symbols sent to [ai-trading-analysis], in order. *)
Definition analysis_requests (cs : list Call) : list string :=
  omap (fun c => match c with InvokeAnalysis s => Some s | _ => None end) cs.

(** The symbol lists sent to the quote service, in order. *)
Definition quote_requests (cs : list Call) : list (list string) :=
  omap (fun c => match c with InvokeQuotes l => Some l | _ => None end) cs.

(** The queries sent to the symbol search, in order. *)
Definition search_requests (cs : list Call) : list string :=
  omap (fun c => match c with InvokeSearch q => Some q | _ => None end) cs.

(** The number of reads of the predictions table. *)
Definition reads (cs : list Call) : nat :=
  length (omap (fun c => match c with SelectPredictions => Some tt | _ => None end) cs).

(** The error of a failed call: the client threw, or answered
    [{ data: null, error }]. *)
Definition failure {T} (out : Settled (Response T)) : option JsError :=
  match out with
  | Rejected e => Some e
  | Fulfilled (Failure e) => Some e
  | Fulfilled (Success _) => None
  end.

(** The predictions a read delivered, if it succeeded. *)
Definition delivered (out : Settled (Response (list Prediction)))
  : option (list Prediction) :=
  match out with
  | Fulfilled (Success d) => Some (default [] d)
  | _ => None
  end.

(** The hits a search delivered; none when it failed. *)
Definition hits_of (out : Settled (Response SearchPayload)) : list SearchHit :=
  match out with
  | Fulfilled (Success (Some d)) => default [] (results d)
  | _ => []
  end.

(** The services' state after the analysis calls for [group], in order. *)
Definition after_batch {W} (B : Backend W) (group : list string) (w : W) : W :=
  fold_left (fun w sym => snd (analysis B sym w)) group w.

(** [p'] differs from [p] at most in the quote map. *)
Definition quotes_frame (p p' : PageState) : Prop :=
  searchSymbol p' = searchSymbol p /\ predictions p' = predictions p /\
  loading p' = loading p /\ analyzing p' = analyzing p.

(** The quote call a delivered prediction list is followed by. *)
Definition enrichment (got : option (list Prediction)) : list Call :=
  match got with
  | Some (p :: ps) => [InvokeQuotes (spread_Set (map symbol (p :: ps)))]
  | _ => []
  end.

(** The calls of a fallback run: a read, the group's analysis calls, a
    read, and the quote request for what it delivered. *)
Definition fallback_calls (group : list string)
           (got : option (list Prediction)) : list Call :=
  SelectPredictions :: map InvokeAnalysis group
    ++ SelectPredictions :: enrichment got.

(** The quote requests of a run that obtains the list [l]. *)
Definition requests_for (l : list Prediction) : list (list string) :=
  match l with
  | [] => []
  | p :: ps => [spread_Set (map symbol (p :: ps))]
  end.

(** The predictions a run of [initializePage] obtains from the table:
    those of the first read when it delivers any, else those of the read
    that follows the fallback batch; none when that read fails or the run
    throws before it. *)
Definition obtained {W} (B : Backend W) (w : W) : option (list Prediction) :=
  match select_predictions B w with
  | (Fulfilled r, w1) =>
      match data r with
      | Some (p :: ps) => Some (p :: ps)
      | _ =>
          match todaysTrending (zone B) (Date_now B w1) with
          | Some group =>
              delivered (fst (select_predictions B (after_batch B group w1)))
          | None => None
          end
      end
  | (Rejected _, _) => None
  end.

(** The symbol a search outcome leads to. *)
Definition first_hit_or (fallback : string)
           (out : Settled (Response SearchPayload)) : string :=
  match hits_of out with
  | [] => fallback
  | h :: _ => hit_symbol h
  end.

(** The machine once [setAnalyzing(true)] has run. *)
Definition analyzing_started {W} (m : Machine W) : Machine W :=
  snd (setAnalyzing true m).

(** A host whose clock is not before the epoch and whose standard offset
    is within a day. *)
Definition sane_host (tz : JsDate.TimeZone) (t : Z) : Prop :=
  0 <= t /\ - JsDate.msPerDay <= JsDate.stdOffset tz <= JsDate.msPerDay.

(** ** A scripted backend

    A small instance of the services, used to run the page on concrete
    inputs: a predictions table, switches for the failures of each service,
    and a clock that stands still. *)
Module Demo.

Local Open Scope string_scope.

Record World := {
  table : list Prediction;          (* newest first *)
  table_down : bool;                (* reads answer with an error *)
  rejected_symbols : list string;   (* analysis answers with an error *)
  crashing_symbols : list string;   (* the analysis call throws *)
  live : option (list CurrentQuote);  (* [None]: the quote service is down *)
  found : option (list SearchHit);    (* [None]: the search throws *)
  clock : Z
}.

Definition forecast (sym : string) : Prediction :=
  {| id := "p-" ++ sym; symbol := sym;
     predicted_price := S754_finite false 25 2;       (* 100 *)
     confidence_score := S754_finite false 3 (-2);   (* 0.75 *)
     signal_type := hold;
     created_at := "2025-07-01T12:00:00Z"; expires_at := "2025-07-02T12:00:00Z";
     technical_indicators := JNull |}.

Definition quote (sym : string) : CurrentQuote :=
  {| q_symbol := sym;
     price := S754_finite false 101 0;           (* 101 *)
     change := S754_finite false 1 0;            (* 1 *)
     changePercent := S754_finite false 1 0 |}.

Definition with_table (w : World) (t : list Prediction) : World :=
  {| table := t; table_down := table_down w;
     rejected_symbols := rejected_symbols w;
     crashing_symbols := crashing_symbols w;
     live := live w; found := found w; clock := clock w |}.

Definition backend (tz : JsDate.TimeZone) : Backend World :=
  {| select_predictions := fun w =>
       if table_down w
       then (Fulfilled (Failure (ServiceError "relation unavailable")), w)
       else (Fulfilled (Success (Some (take 10 (table w)))), w);
     analysis := fun sym w =>
       if bool_decide (sym ∈ crashing_symbols w)
       then (Rejected (ServiceError "network"), w)
       else if bool_decide (sym ∈ rejected_symbols w)
       then (Fulfilled (Failure (ServiceError "analysis failed")), w)
       else (Fulfilled (Success (Some JNull)),
             with_table w (forecast sym :: table w));
     current_quotes := fun symbols w =>
       match live w with
       | None => (Fulfilled (Failure (ServiceError "quotes unavailable")), w)
       | Some qs =>
           (Fulfilled (Success (Some
              {| quotes := Some (filter (fun q => q_symbol q ∈ symbols) qs) |})), w)
       end;
     search_stocks := fun query w =>
       match found w with
       | None => (Rejected (ServiceError "search unavailable"), w)
       | Some hs => (Fulfilled (Success (Some {| results := Some hs |})), w)
       end;
     Date_now := clock;
     zone := tz |}.

(** 2025-07-01T16:00:00Z *)
Definition noon : Z := 1751385600000.

(** An empty table; of today's symbols, the analysis of [AMZN] answers
    with an error, that of [NFLX] throws and that of [AMD] succeeds. *)
Definition cold : World :=
  {| table := []; table_down := false;
     rejected_symbols := ["AMZN"]; crashing_symbols := ["NFLX"];
     live := Some [quote "AMD"]; found := Some [{| hit_symbol := "AAPL" |}];
     clock := noon |}.

(** A table that cannot be read. *)
Definition unreadable : World :=
  {| table := []; table_down := true;
     rejected_symbols := []; crashing_symbols := [];
     live := Some []; found := None; clock := noon |}.

(** An empty table and no analysis succeeds. *)
Definition barren : World :=
  {| table := []; table_down := false;
     rejected_symbols := ["AMZN"; "NFLX"; "AMD"]; crashing_symbols := [];
     live := Some []; found := None; clock := noon |}.

(** Two predictions for the same symbol and one for another. *)
Definition warm : World :=
  {| table := [forecast "AAPL"; forecast "MSFT"; forecast "AAPL"];
     table_down := false;
     rejected_symbols := ["ZZZZ"]; crashing_symbols := [];
     live := None; found := Some []; clock := noon |}.

Definition boot {W} (w : W) (p : PageState) : Machine W :=
  {| page := p; world := w; calls := []; console := [] |}.

Definition typed (text : string) : PageState :=
  {| searchSymbol := text; predictions := [forecast "TSLA"];
     currentQuotes := {[ "TSLA" := quote "TSLA" ]};
     loading := false; analyzing := false |}.

(** A host on UTC. *)
Definition utc : JsDate.TimeZone := JsDate.fixedZone 0.

End Demo.

(** * Properties *)

(** ** Strings *)
Section StringFacts.

Import JsString.

Lemma whiteRest_shorter (s r : string) :
  whiteRest s = Some r -> (String.length r < String.length s)%nat.
Proof.
  destruct s as [|c1 [|c2 [|c3 r3]]]; simpl; try discriminate.
  - destruct (white1 c1); [| discriminate]. intros [= <-]. simpl. lia.
  - destruct (white1 c1); [intros [= <-]; simpl; lia |].
    destruct (white2 c1 c2); [| discriminate]. intros [= <-]. simpl. lia.
  - destruct (white1 c1); [intros [= <-]; simpl; lia |].
    destruct (white2 c1 c2); [intros [= <-]; simpl; lia |].
    destruct (white3 c1 c2 c3); [| discriminate]. intros [= <-]. simpl. lia.
Qed.

Lemma isBlank_eq (s : string) :
  isBlank s = match s with
              | EmptyString => true
              | String _ _ =>
                  match whiteRest s with
                  | Some r => isBlank r
                  | None => false
                  end
              end.
Proof.
  destruct s as [|c1 [|c2 [|c3 r3]]]; simpl; try reflexivity.
  - now destruct (white1 c1).
  - destruct (white1 c1); [reflexivity |]. now destruct (white2 c1 c2).
  - destruct (white1 c1); [reflexivity |].
    destruct (white2 c1 c2); [reflexivity |]. now destruct (white3 c1 c2 c3).
Qed.

Lemma trimStart_eq (s : string) :
  trimStart s = match whiteRest s with
                | Some r => trimStart r
                | None => s
                end.
Proof.
  destruct s as [|c1 [|c2 [|c3 r3]]]; simpl; try reflexivity.
  - now destruct (white1 c1).
  - destruct (white1 c1); [reflexivity |]. now destruct (white2 c1 c2).
  - destruct (white1 c1); [reflexivity |].
    destruct (white2 c1 c2); [reflexivity |]. now destruct (white3 c1 c2 c3).
Qed.

(** Induction along the leading white space of a text. *)
Lemma white_ind (P : string -> Prop) :
  (forall s, whiteRest s = None -> P s) ->
  (forall s r, whiteRest s = Some r -> P r -> P s) ->
  forall s, P s.
Proof.
  intros Hnone Hsome s.
  remember (String.length s) as n eqn:Hn. revert s Hn.
  induction n as [n IH] using lt_wf_ind. intros s ->.
  destruct (whiteRest s) as [r|] eqn:E; [| now apply Hnone].
  apply (Hsome s r E). apply (IH (String.length r)); [| reflexivity].
  now apply whiteRest_shorter.
Qed.

Lemma trimStart_blank (s : string) :
  isBlank s = true -> trimStart s = EmptyString.
Proof.
  induction s as [s E | s r E IH] using white_ind;
    rewrite isBlank_eq, trimStart_eq, E.
  - destruct s; [reflexivity | discriminate].
  - destruct s; [discriminate E | exact IH].
Qed.

Lemma isBlank_trimStart (s : string) :
  isBlank (trimStart s) = true -> isBlank s = true.
Proof.
  induction s as [s E | s r E IH] using white_ind;
    rewrite trimStart_eq, E; [tauto |].
  intros H. rewrite isBlank_eq, E. destruct s; [reflexivity | now apply IH].
Qed.

Lemma trimEnd_empty (s : string) :
  trimEnd s = EmptyString -> isBlank s = true.
Proof.
  destruct s as [|c s]; [reflexivity |].
  cbn [trimEnd]. destruct (isBlank (String c s)); [reflexivity | discriminate].
Qed.

(** The guard of [analyzeStock] lets exactly the blank texts return. *)
Lemma trim_falsy_iff (s : string) :
  truthy (trim s) = false <-> isBlank s = true.
Proof.
  split.
  - unfold trim. destruct (trimEnd (trimStart s)) eqn:E; [| discriminate].
    intros _. apply isBlank_trimStart. now apply trimEnd_empty.
  - intros H. unfold trim. now rewrite trimStart_blank.
Qed.

Lemma test_A_Z_1_5_length (s : string) :
  test_A_Z_1_5 s = true -> (1 <= String.length s <= 5)%nat.
Proof.
  unfold test_A_Z_1_5.
  intros [[H1 H2]%andb_true_iff _]%andb_true_iff.
  apply Nat.leb_le in H1, H2. lia.
Qed.

Lemma length_asciiUpper (s : string) :
  String.length (asciiUpper s) = String.length s.
Proof. induction s as [|c s IH]; simpl; [reflexivity | now rewrite IH]. Qed.

(** The code units a byte stands for. *)
Definition units (c : ascii) : nat :=
  if isContinuation c then 0 else if (240 <=? code c)%nat then 2 else 1.

Lemma jsLength_cons (c : ascii) (s : string) :
  jsLength (String c s) = (units c + jsLength s)%nat.
Proof. reflexivity. Qed.

Lemma units_code (c : ascii) (n : nat) :
  code c = n ->
  units c = if ((128 <=? n) && (n <=? 191))%nat then 0%nat
            else if (240 <=? n)%nat then 2%nat else 1%nat.
Proof. intros <-. reflexivity. Qed.

Lemma units_upperChar (c : ascii) : units (upperChar c) = units c.
Proof. destruct c as [[] [] [] [] [] [] [] []]; reflexivity. Qed.

Lemma code_ascii_of_nat (n : nat) : (n < 256)%nat -> code (ascii_of_nat n) = n.
Proof. apply nat_ascii_embedding. Qed.

Lemma latin1Upper_grows (s : string) :
  (jsLength s <= jsLength (latin1Upper s))%nat.
Proof.
  remember (String.length s) as n eqn:Hn. revert s Hn.
  induction n as [n IH] using lt_wf_ind. intros s ->.
  destruct s as [|c1 [|c2 r2]]; [reflexivity | |].
  - cbn [latin1Upper]. rewrite !jsLength_cons, units_upperChar. lia.
  - assert (IH1 : (jsLength (String c2 r2) <= jsLength (latin1Upper (String c2 r2)))%nat)
      by (apply (IH (String.length (String c2 r2))); [simpl; lia | reflexivity]).
    assert (IH2 : (jsLength r2 <= jsLength (latin1Upper r2))%nat)
      by (apply (IH (String.length r2)); [simpl; lia | reflexivity]).
    change (latin1Upper (String c1 (String c2 r2)))
      with (if (code c1 =? 195)%nat && (code c2 =? 159)%nat
            then String "S" (String "S" (latin1Upper r2))
            else if (code c1 =? 195)%nat && (code c2 =? 191)%nat
            then String (ascii_of_nat 197) (String (ascii_of_nat 184) (latin1Upper r2))
            else if (code c1 =? 194)%nat && (code c2 =? 181)%nat
            then String (ascii_of_nat 206) (String (ascii_of_nat 156) (latin1Upper r2))
            else if (code c1 =? 195)%nat && (160 <=? code c2)%nat
                    && (code c2 <=? 190)%nat && negb (code c2 =? 183)%nat
            then String c1 (String (ascii_of_nat (code c2 - 32)) (latin1Upper r2))
            else String (upperChar c1) (latin1Upper (String c2 r2))).
    destruct ((code c1 =? 195)%nat && (code c2 =? 159)%nat) eqn:E1.
    { apply andb_true_iff in E1 as [H1 H2].
      apply Nat.eqb_eq in H1, H2.
      rewrite !jsLength_cons, (units_code c1 _ H1), (units_code c2 _ H2).
      change (units "S") with 1%nat. simpl. lia. }
    destruct ((code c1 =? 195)%nat && (code c2 =? 191)%nat) eqn:E2.
    { apply andb_true_iff in E2 as [H1 H2].
      apply Nat.eqb_eq in H1, H2.
      rewrite !jsLength_cons, (units_code c1 _ H1), (units_code c2 _ H2).
      change (units (ascii_of_nat 197)) with 1%nat.
      change (units (ascii_of_nat 184)) with 0%nat. simpl. lia. }
    destruct ((code c1 =? 194)%nat && (code c2 =? 181)%nat) eqn:E3.
    { apply andb_true_iff in E3 as [H1 H2].
      apply Nat.eqb_eq in H1, H2.
      rewrite !jsLength_cons, (units_code c1 _ H1), (units_code c2 _ H2).
      change (units (ascii_of_nat 206)) with 1%nat.
      change (units (ascii_of_nat 156)) with 0%nat. simpl. lia. }
    destruct ((code c1 =? 195)%nat && (160 <=? code c2)%nat
              && (code c2 <=? 190)%nat && negb (code c2 =? 183)%nat) eqn:E4.
    { apply andb_true_iff in E4 as [E4 _].
      apply andb_true_iff in E4 as [E4 H3].
      apply andb_true_iff in E4 as [H1 H2].
      apply Nat.eqb_eq in H1. apply Nat.leb_le in H2, H3.
      rewrite !jsLength_cons.
      assert (Hu2 : units c2 = 0%nat).
      { unfold units, isContinuation.
        destruct (Nat.leb_spec 128 (code c2)); [| lia].
        destruct (Nat.leb_spec (code c2) 191); [reflexivity | lia]. }
      assert (Hu3 : units (ascii_of_nat (code c2 - 32)) = 0%nat).
      { unfold units, isContinuation.
        rewrite code_ascii_of_nat by lia.
        destruct (Nat.leb_spec 128 (code c2 - 32)); [| lia].
        destruct (Nat.leb_spec (code c2 - 32) 191); [reflexivity | lia]. }
      rewrite Hu2, Hu3. lia. }
    rewrite (jsLength_cons c1), (jsLength_cons (upperChar c1)), units_upperChar.
    lia.
Qed.

End StringFacts.

(** The case mapping of a host, on texts of the Basic Latin and Latin-1
    blocks. *)
Definition latin1 : JsString.CaseMapping :=
  {| JsString.upper_of := JsString.latin1Upper;
     JsString.upper_grows := latin1Upper_grows |}.

(** ** [[...new Set(l)]] *)
Section Distinct.

Lemma distinct_from_elem (l seen : list string) (x : string) :
  x ∈ distinct_from seen l <-> x ∈ l /\ x ∉ seen.
Proof.
  revert seen. induction l as [|y l IH]; intros seen; simpl.
  - split; [intros H; inversion H | intros [H _]; inversion H].
  - case_bool_decide as Hy.
    + rewrite IH, elem_of_cons. split; [tauto |].
      intros [[-> | H] Hn]; [contradiction | tauto].
    + rewrite !elem_of_cons, IH, elem_of_cons. split.
      * intros [-> | [H1 H2]]; [tauto |].
        split; [tauto |]. intros H3. apply H2. now right.
      * intros [[-> | H1] H2]; [now left |].
        destruct (decide (x = y)) as [-> | Hne]; [now left |].
        right. split; [exact H1 |]. intros [? | ?]; [contradiction | contradiction].
Qed.

Lemma distinct_from_NoDup (l seen : list string) :
  NoDup (distinct_from seen l).
Proof.
  revert seen. induction l as [|y l IH]; intros seen; simpl.
  - constructor.
  - case_bool_decide as Hy; [apply IH |].
    constructor; [| apply IH].
    rewrite distinct_from_elem. intros [_ H]. apply H. now left.
Qed.

(** No symbol is passed twice. *)
Lemma spread_Set_NoDup (l : list string) : NoDup (spread_Set l).
Proof. apply distinct_from_NoDup. Qed.

(** The symbols passed are those of the list. *)
Lemma spread_Set_elem (l : list string) (x : string) :
  x ∈ spread_Set l <-> x ∈ l.
Proof.
  unfold spread_Set. rewrite distinct_from_elem. split; [tauto |].
  intros H. split; [exact H |]. intros H'. inversion H'.
Qed.

End Distinct.

(** ** Runs of the page's functions *)

Ltac run :=
  unfold bind, try_catch, try_finally, await, ret, throw, now,
    setSearchSymbol, setPredictions, setCurrentQuotes, setLoading, setAnalyzing,
    set_page, console_log, console_error; simpl.

Section Runs.

Context {W : Type} (B : Backend W).

(** [fetchCurrentQuotes] makes one call, never throws, and touches
    nothing but the quote map; when the call fails it touches nothing. *)
Lemma fetchCurrentQuotes_run (symbols : list string) (m : Machine W) :
  exists m',
    fetchCurrentQuotes B symbols m = (Fulfilled tt, m') /\
    world m' = snd (current_quotes B symbols (world m)) /\
    calls m' = calls m ++ [InvokeQuotes symbols] /\
    quotes_frame (page m) (page m') /\
    (failure (fst (current_quotes B symbols (world m))) <> None ->
     page m' = page m).
Proof.
  unfold fetchCurrentQuotes, quotes_frame. run.
  destruct (current_quotes B symbols (world m)) as [[[d|e]|e] w']; simpl.
  - destruct d as [d|]; simpl; eexists; (split; [reflexivity |]);
      simpl; repeat split; intros H; now contradiction H.
  - eexists. split; [reflexivity |]. simpl. repeat split.
  - eexists. split; [reflexivity |]. simpl. repeat split.
Qed.

(** [fetchPredictions] reads the table once, never throws, replaces the
    prediction list by what the read delivered and then asks for the
    quotes of a non-empty list; a failed read leaves the page as it was. *)
Lemma fetchPredictions_run (m : Machine W) :
  let out := fst (select_predictions B (world m)) in
  exists m',
    fetchPredictions B m = (Fulfilled tt, m') /\
    calls m' = calls m ++ SelectPredictions :: enrichment (delivered out) /\
    predictions (page m') = default (predictions (page m)) (delivered out) /\
    searchSymbol (page m') = searchSymbol (page m) /\
    loading (page m') = loading (page m) /\
    analyzing (page m') = analyzing (page m) /\
    (delivered out = None -> page m' = page m).
Proof.
  unfold fetchPredictions. run.
  destruct (select_predictions B (world m)) as [[[d|e]|e] w']; simpl.
  - destruct d as [[|p ps]|]; simpl;
      try (eexists; split; [reflexivity |]; simpl;
           repeat split; try reflexivity; discriminate).
    match goal with
    | |- context [fetchCurrentQuotes B ?s ?m1] =>
        destruct (fetchCurrentQuotes_run s m1) as (m' & -> & _ & Hc & Hf & _)
    end.
    destruct Hf as (H1 & H2 & H3 & H4). simpl in *.
    eexists; split; [reflexivity |].
    rewrite Hc, <- app_assoc. repeat split; try assumption; try reflexivity.
    discriminate.
  - eexists; split; [reflexivity |]; simpl. repeat split; reflexivity.
  - eexists; split; [reflexivity |]; simpl. repeat split; reflexivity.
Qed.

(** The loop over today's symbols makes one analysis call per symbol, in
    order, whatever each call answers, and leaves the page alone. *)
Lemma for_of_analyzeTrending_run (group : list string) (m : Machine W) :
  exists m',
    for_of group (analyzeTrending B) m = (Fulfilled tt, m') /\
    page m' = page m /\
    world m' = after_batch B group (world m) /\
    calls m' = calls m ++ map InvokeAnalysis group.
Proof.
  revert m. induction group as [|sym group IH]; intros m; simpl.
  - exists m. rewrite app_nil_r. repeat split.
  - unfold bind at 1. unfold analyzeTrending at 1. run.
    destruct (analysis B sym (world m)) as [[r|e] w'] eqn:E; simpl;
      match goal with
      | |- context [for_of group _ ?m1] =>
          destruct (IH m1) as (m' & -> & Hp & Hw & Hc)
      end; simpl in *;
      exists m'; rewrite Hc, <- app_assoc; repeat split; assumption.
Qed.

(** The fallback generation, on a day whose group is [group]. *)
Lemma generateTrendingStocksPredictions_run (group : list string) (m : Machine W) :
  todaysTrending (zone B) (Date_now B (world m)) = Some group ->
  let out := fst (select_predictions B (after_batch B group (world m))) in
  exists m',
    generateTrendingStocksPredictions B m = (Fulfilled tt, m') /\
    calls m' = calls m ++ map InvokeAnalysis group
                 ++ SelectPredictions :: enrichment (delivered out) /\
    predictions (page m') = default (predictions (page m)) (delivered out) /\
    searchSymbol (page m') = searchSymbol (page m) /\
    loading (page m') = loading (page m) /\
    analyzing (page m') = analyzing (page m).
Proof.
  intros Hg. unfold generateTrendingStocksPredictions.
  unfold bind at 1, now. rewrite Hg.
  unfold bind at 1, console_log. unfold bind at 1.
  match goal with
  | |- context [for_of group _ ?m1] =>
      destruct (for_of_analyzeTrending_run group m1) as (m2 & -> & Hp & Hw & Hc)
  end.
  simpl in *.
  destruct (fetchPredictions_run m2) as (m' & -> & Hc' & Hps & Hs & Hl & Ha & _).
  rewrite Hw in *. rewrite Hp in *.
  exists m'. rewrite Hc', Hc, <- app_assoc. repeat split; assumption.
Qed.

(** [initializePage] when the first read delivers no prediction: the
    table is empty, or the read answered with an error. *)
Lemma initializePage_fallback_run
      (m : Machine W) (r : Response (list Prediction)) (w1 : W)
      (group : list string) :
  select_predictions B (world m) = (Fulfilled r, w1) ->
  default [] (data r) = [] ->
  todaysTrending (zone B) (Date_now B w1) = Some group ->
  let out := fst (select_predictions B (after_batch B group w1)) in
  exists m',
    initializePage B m = (Fulfilled tt, m') /\
    calls m' = calls m ++ SelectPredictions :: map InvokeAnalysis group
                 ++ SelectPredictions :: enrichment (delivered out) /\
    predictions (page m') = default (predictions (page m)) (delivered out) /\
    loading (page m') = false.
Proof.
  intros Hr Hd Hg. unfold initializePage.
  unfold bind at 1, setLoading at 1, set_page.
  unfold bind at 1, await. simpl. rewrite Hr.
  unfold bind at 1.
  assert (Hgen : forall m1, (match data r with
                 | Some (p :: ps) =>
                     (setPredictions (p :: ps);;
                      fetchCurrentQuotes B (spread_Set (map symbol (p :: ps))))
                 | _ => generateTrendingStocksPredictions B
                 end) m1 = generateTrendingStocksPredictions B m1).
  { intros m1. destruct (data r) as [[|p ps]|]; [reflexivity | discriminate | reflexivity]. }
  rewrite Hgen.
  match goal with
  | |- context [generateTrendingStocksPredictions B ?m1] =>
      destruct (generateTrendingStocksPredictions_run group m1 Hg)
        as (m2 & -> & Hc & Hps & _)
  end.
  simpl in *. run. eexists. split; [reflexivity |]. simpl.
  rewrite Hc, <- app_assoc. repeat split. exact Hps.
Qed.

(** [initializePage] when the first read delivers predictions. *)
Lemma initializePage_existing_run
      (m : Machine W) (r : Response (list Prediction)) (w1 : W)
      (p : Prediction) (ps : list Prediction) :
  select_predictions B (world m) = (Fulfilled r, w1) ->
  data r = Some (p :: ps) ->
  exists m',
    initializePage B m = (Fulfilled tt, m') /\
    calls m' = calls m ++ [SelectPredictions;
                           InvokeQuotes (spread_Set (map symbol (p :: ps)))] /\
    predictions (page m') = p :: ps /\
    loading (page m') = false.
Proof.
  intros Hr Hd. unfold initializePage.
  unfold bind at 1, setLoading at 1, set_page.
  unfold bind at 1, await. simpl. rewrite Hr.
  unfold bind at 1. rewrite Hd.
  unfold bind at 1, setPredictions, set_page.
  match goal with
  | |- context [fetchCurrentQuotes B ?s ?m1] =>
      destruct (fetchCurrentQuotes_run s m1) as (m2 & -> & _ & Hc & Hf & _)
  end.
  destruct Hf as (_ & Hps & _). simpl in *. run.
  eexists. split; [reflexivity |]. simpl.
  rewrite Hc, <- app_assoc. repeat split. exact Hps.
Qed.

(** A first read that throws ends [initializePage] there. *)
Lemma initializePage_rejected_run (m : Machine W) (e : JsError) (w1 : W) :
  select_predictions B (world m) = (Rejected e, w1) ->
  exists m',
    initializePage B m = (Rejected e, m') /\
    calls m' = calls m ++ [SelectPredictions] /\
    predictions (page m') = predictions (page m).
Proof.
  intros Hr. unfold initializePage. run. rewrite Hr.
  eexists. split; [reflexivity |]. split; reflexivity.
Qed.

(** Without a group for the day the fallback throws before any call. *)
Lemma initializePage_no_group_run
      (m : Machine W) (r : Response (list Prediction)) (w1 : W) :
  select_predictions B (world m) = (Fulfilled r, w1) ->
  default [] (data r) = [] ->
  todaysTrending (zone B) (Date_now B w1) = None ->
  exists e m',
    initializePage B m = (Rejected e, m') /\
    calls m' = calls m ++ [SelectPredictions] /\
    predictions (page m') = predictions (page m).
Proof.
  intros Hr Hd Hg. unfold initializePage, generateTrendingStocksPredictions.
  run. rewrite Hr.
  destruct (data r) as [[|p ps]|]; try discriminate; simpl; rewrite Hg;
    eexists _, _; (split; [reflexivity |]); split; reflexivity.
Qed.

End Runs.

(** ** The observations on the calls of a run *)
Section Observations.

Lemma analysis_requests_app (l k : list Call) :
  analysis_requests (l ++ k) = analysis_requests l ++ analysis_requests k.
Proof. apply omap_app. Qed.

Lemma quote_requests_app (l k : list Call) :
  quote_requests (l ++ k) = quote_requests l ++ quote_requests k.
Proof. apply omap_app. Qed.

Lemma search_requests_app (l k : list Call) :
  search_requests (l ++ k) = search_requests l ++ search_requests k.
Proof. apply omap_app. Qed.

Lemma reads_app (l k : list Call) : reads (l ++ k) = (reads l + reads k)%nat.
Proof. unfold reads. now rewrite omap_app, length_app. Qed.

Lemma analysis_requests_batch (group : list string) :
  analysis_requests (map InvokeAnalysis group) = group.
Proof. induction group as [|s g IH]; simpl; [reflexivity | now rewrite IH]. Qed.

Lemma quote_requests_batch (group : list string) :
  quote_requests (map InvokeAnalysis group) = [].
Proof. induction group as [|s g IH]; simpl; [reflexivity | exact IH]. Qed.

Lemma reads_batch (group : list string) :
  reads (map InvokeAnalysis group) = 0%nat.
Proof. induction group as [|s g IH]; simpl; [reflexivity | exact IH]. Qed.

Lemma analysis_requests_enrichment (got : option (list Prediction)) :
  analysis_requests (enrichment got) = [].
Proof. destruct got as [[|p ps]|]; reflexivity. Qed.

Lemma search_requests_enrichment (got : option (list Prediction)) :
  search_requests (enrichment got) = [].
Proof. destruct got as [[|p ps]|]; reflexivity. Qed.

Lemma reads_enrichment (got : option (list Prediction)) :
  reads (enrichment got) = 0%nat.
Proof. destruct got as [[|p ps]|]; reflexivity. Qed.

(** The quote requests after a read, in terms of the list it leaves on
    a page that had none. *)
Lemma quote_requests_enrichment (got : option (list Prediction)) :
  quote_requests (enrichment got) =
    match default [] got with
    | [] => []
    | q :: qs => [spread_Set (map symbol (q :: qs))]
    end.
Proof. destruct got as [[|p ps]|]; reflexivity. Qed.

Lemma analysis_requests_fallback group got :
  analysis_requests (fallback_calls group got) = group.
Proof.
  unfold fallback_calls.
  change (analysis_requests (map InvokeAnalysis group
                               ++ SelectPredictions :: enrichment got) = group).
  rewrite analysis_requests_app, analysis_requests_batch.
  change (group ++ analysis_requests (enrichment got) = group).
  now rewrite analysis_requests_enrichment, app_nil_r.
Qed.

Lemma reads_fallback group got : reads (fallback_calls group got) = 2%nat.
Proof.
  unfold fallback_calls.
  change (S (reads (map InvokeAnalysis group
                      ++ SelectPredictions :: enrichment got)) = 2%nat).
  rewrite reads_app, reads_batch.
  change (S (S (reads (enrichment got))) = 2%nat).
  now rewrite reads_enrichment.
Qed.

Lemma quote_requests_fallback group got :
  quote_requests (fallback_calls group got) = quote_requests (enrichment got).
Proof.
  unfold fallback_calls.
  change (quote_requests (map InvokeAnalysis group
                            ++ SelectPredictions :: enrichment got)
          = quote_requests (enrichment got)).
  now rewrite quote_requests_app, quote_requests_batch.
Qed.

End Observations.

(** ** The calendar *)

(** Linear arithmetic with the floors of divisions by constants. *)
Ltac floor_lia := Z.div_mod_to_equations; lia.

Section Calendar.

Import JsDate.

Lemma step_4 (y : Z) :
  0 <= (y + 1 - 1969) / 4 - (y - 1969) / 4 <= 1.
Proof. floor_lia. Qed.

Lemma step_100 (y : Z) :
  0 <= (y + 1 - 1901) / 100 - (y - 1901) / 100
    <= (y + 1 - 1969) / 4 - (y - 1969) / 4.
Proof. floor_lia. Qed.

Lemma step_400 (y : Z) :
  0 <= (y + 1 - 1601) / 400 - (y - 1601) / 400
    <= (y + 1 - 1901) / 100 - (y - 1901) / 100.
Proof. floor_lia. Qed.

(** A year has 365 or 366 days. *)
Lemma DayFromYear_step (y : Z) :
  365 <= DayFromYear (y + 1) - DayFromYear y <= 366.
Proof.
  unfold DayFromYear.
  pose proof (step_4 y) as H4. pose proof (step_100 y) as H100.
  pose proof (step_400 y) as H400.
  revert H4 H100 H400.
  generalize ((y + 1 - 1969) / 4), ((y - 1969) / 4),
             ((y + 1 - 1901) / 100), ((y - 1901) / 100),
             ((y + 1 - 1601) / 400), ((y - 1601) / 400).
  intros. lia.
Qed.

(** The estimate of [YearFromTime] is off by at most one year. *)
Lemma year_estimate (y d : Z) :
  146097 * (y - 1970) <= 400 * d < 146097 * (y - 1970) + 146097 ->
  DayFromYear (y - 1) <= d < DayFromYear (y + 2).
Proof. unfold DayFromYear. intros H. floor_lia. Qed.

(** [YearFromTime t] is the year whose days hold the day of [t]. *)
Lemma YearFromTime_spec (t : Z) :
  DayFromYear (YearFromTime t) <= Day t < DayFromYear (YearFromTime t + 1).
Proof.
  unfold YearFromTime.
  set (d := Day t). set (y := 1970 + 400 * d / 146097).
  assert (Hy : 146097 * (y - 1970) <= 400 * d < 146097 * (y - 1970) + 146097)
    by (unfold y; floor_lia).
  apply year_estimate in Hy. clearbody y d.
  destruct (d <? DayFromYear y) eqn:E1.
  - apply Z.ltb_lt in E1. replace (y - 1 + 1) with y by lia. lia.
  - apply Z.ltb_ge in E1.
    destruct (DayFromYear (y + 1) <=? d) eqn:E2.
    + apply Z.leb_le in E2. replace (y + 1 + 1) with (y + 2) by lia. lia.
    + apply Z.leb_gt in E2. lia.
Qed.

Lemma MakeDay_january_0 (y : Z) : MakeDay y 0 0 = DayFromYear y - 1.
Proof.
  unfold MakeDay. change (0 / 12) with 0. change (0 mod 12) with 0.
  rewrite !Z.add_0_r. change (daysBeforeMonth (InLeapYear y) 0) with 0. lia.
Qed.

(** In a zone without daylight-saving time the day number is the local
    day counted from the last day of the previous year. *)
Lemma dayOfYear_fixedZone (offset t : Z) :
  let y := YearFromTime (t + offset) in
  let yr := if (0 <=? y) && (y <=? 99) then 1900 + y else y in
  dayOfYear (fixedZone offset) t = Day (t + offset) - DayFromYear yr + 1.
Proof.
  unfold dayOfYear, newDate, getFullYear, UTC, LocalTime, LocalTZA, MakeDate, Day.
  simpl. rewrite !Z.add_0_r.
  set (yr := if _ : bool then _ else _). rewrite MakeDay_january_0.
  change (1000 * 60 * 60 * 24) with msPerDay.
  replace (t - ((DayFromYear yr - 1) * msPerDay - offset))
    with (t + offset + (- DayFromYear yr + 1) * msPerDay) by lia.
  rewrite Z.div_add by (unfold msPerDay; lia). lia.
Qed.

(** Two instants of one local day get the same day number there. *)
Lemma dayOfYear_fixedZone_same_day (offset t1 t2 : Z) :
  Day (LocalTime (fixedZone offset) t1) = Day (LocalTime (fixedZone offset) t2) ->
  dayOfYear (fixedZone offset) t1 = dayOfYear (fixedZone offset) t2.
Proof.
  unfold LocalTime, LocalTZA. simpl. rewrite !Z.add_0_r. intros H.
  rewrite !dayOfYear_fixedZone. unfold YearFromTime. now rewrite H.
Qed.

Lemma LocalTZA_range (tz : TimeZone) (t : Z) (isUTC : bool) :
  stdOffset tz <= LocalTZA tz t isUTC <= stdOffset tz + msPerHour.
Proof.
  unfold LocalTZA, msPerHour. destruct (inDaylightTime tz t isUTC); lia.
Qed.

Lemma DayFromYear_mono (y : Z) (n : nat) :
  DayFromYear y + 365 * Z.of_nat n <= DayFromYear (y + Z.of_nat n).
Proof.
  induction n as [|n IH];
    [change (Z.of_nat 0) with 0; replace (y + 0) with y by lia; lia |].
  pose proof (DayFromYear_step (y + Z.of_nat n)).
  replace (y + Z.of_nat (S n)) with (y + Z.of_nat n + 1) by lia. lia.
Qed.

(** A local time from 1969 on lies in a year from 1969 on. *)
Lemma YearFromTime_recent (L : Z) :
  - 2 * msPerDay <= L -> 1969 <= YearFromTime L.
Proof.
  intros HL. pose proof (YearFromTime_spec L) as Hy.
  assert (-2 <= Day L) by (unfold Day, msPerDay in *; floor_lia).
  destruct (Z_lt_le_dec (YearFromTime L) 1969) as [Hlt|]; [| assumption].
  exfalso.
  pose proof (DayFromYear_mono (YearFromTime L + 1)
                (Z.to_nat (1969 - (YearFromTime L + 1)))) as Hmono.
  rewrite Z2Nat.id in Hmono by lia.
  replace (YearFromTime L + 1 + (1969 - (YearFromTime L + 1))) with 1969
    in Hmono by lia.
  change (DayFromYear 1969) with (-365) in Hmono. lia.
Qed.

(** On such a host the day number is from 0 to 367. *)
Lemma dayOfYear_bounds (tz : TimeZone) (t : Z) :
  sane_host tz t -> 0 <= dayOfYear tz t <= 367.
Proof.
  intros [Ht Hoff].
  unfold dayOfYear, newDate, getFullYear, UTC, MakeDate.
  pose proof (LocalTZA_range tz t true) as Ha.
  set (L := LocalTime tz t).
  assert (HL : L = t + LocalTZA tz t true) by reflexivity.
  pose proof (YearFromTime_spec L) as Hy.
  pose proof (DayFromYear_step (YearFromTime L)) as Hstep.
  assert (Hyear : 1969 <= YearFromTime L)
    by (apply YearFromTime_recent; unfold msPerDay, msPerHour in *; lia).
  replace ((0 <=? YearFromTime L) && (YearFromTime L <=? 99)) with false
    by (symmetry; apply andb_false_iff; right; apply Z.leb_gt; lia).
  rewrite MakeDay_january_0.
  pose proof (LocalTZA_range tz
                ((DayFromYear (YearFromTime L) - 1) * msPerDay + 0) false) as Hb.
  change (1000 * 60 * 60 * 24) with msPerDay.
  unfold Day in Hy. clearbody L.
  revert Hy Hstep Hb Ha HL.
  generalize (LocalTZA tz ((DayFromYear (YearFromTime L) - 1) * msPerDay + 0) false).
  generalize (LocalTZA tz t true).
  generalize (DayFromYear (YearFromTime L + 1)).
  generalize (DayFromYear (YearFromTime L)).
  intros D0 D1 a b Hy Hstep Hb Ha HL. unfold msPerDay, msPerHour in *. floor_lia.
Qed.

(** On such a host the table has a group for every day. *)
Lemma todaysTrending_in_bounds (tz : TimeZone) (t : Z) :
  sane_host tz t ->
  exists group, todaysTrending tz t = Some group /\ group ∈ allTrendingStocks.
Proof.
  intros H. apply dayOfYear_bounds in H.
  unfold todaysTrending, index.
  change (Z.of_nat (length allTrendingStocks)) with 5.
  rewrite Z.rem_mod_nonneg by lia.
  pose proof (Z.mod_pos_bound (dayOfYear tz t) 5 ltac:(lia)) as Hm.
  destruct (dayOfYear tz t mod 5 <? 0) eqn:E; [apply Z.ltb_lt in E; lia |].
  destruct (allTrendingStocks !! Z.to_nat (dayOfYear tz t mod 5)) as [g|] eqn:Eg.
  - exists g. split; [reflexivity |]. eapply list_elem_of_lookup_2, Eg.
  - apply lookup_ge_None in Eg. simpl in Eg. lia.
Qed.

(** Every group of the table has three symbols. *)
Lemma allTrendingStocks_groups (group : list string) :
  group ∈ allTrendingStocks -> length group = 3%nat.
Proof.
  unfold allTrendingStocks. rewrite !elem_of_cons.
  intros [-> | [-> | [-> | [-> | [-> | H]]]]]; try reflexivity. inversion H.
Qed.

End Calendar.

(** ** Runs of [analyzeStock] *)
Section Analyze.

Context {W : Type} (B : Backend W) (unicode : JsString.CaseMapping).

Import JsString.

Local Abbreviation toUpperCase := (upper_of unicode).

(** A text of letters [A] to [Z] has one code unit per byte. *)
Lemma jsLength_letters (p : ascii -> bool) (s : string) :
  (forall c, p c = true -> (code c < 128)%nat) ->
  all p s = true -> jsLength s = String.length s.
Proof.
  intros Hp. induction s as [|c s IH]; [reflexivity |].
  cbn [all jsLength String.length].
  intros [Hc Hs]%andb_true_iff. rewrite (IH Hs).
  apply Hp in Hc. unfold isContinuation.
  destruct (Nat.leb_spec 128 (code c)); [lia |].
  destruct (Nat.leb_spec 240 (code c)); [lia |]. reflexivity.
Qed.

Lemma isUpperAZ_ascii (c : ascii) : isUpperAZ c = true -> (code c < 128)%nat.
Proof.
  unfold isUpperAZ. intros [_ H]%andb_true_iff. apply Nat.leb_le in H. lia.
Qed.

(** The test of line 150. *)
Definition needs_search (s : string) : bool :=
  (5 <? jsLength s)%nat || negb (test_A_Z_1_5 (toUpperCase s)).

(** Upper-casing does not shorten the text, so a text whose upper case
    matches the pattern has at most five code units itself: the test of
    the length never fires on it. *)
Lemma needs_search_canonical (s : string) :
  test_A_Z_1_5 (toUpperCase s) = true ->
  needs_search s = false.
Proof.
  intros Ht. pose proof (upper_grows unicode s) as Hlen.
  unfold needs_search. rewrite Ht, orb_false_r.
  pose proof (test_A_Z_1_5_length _ Ht) as Hl.
  unfold test_A_Z_1_5 in Ht. apply andb_true_iff in Ht as [_ Hall].
  rewrite (jsLength_letters isUpperAZ _ isUpperAZ_ascii Hall) in Hlen.
  apply Nat.ltb_ge. lia.
Qed.

Lemma resolveSymbol_skip (s : string) (m : Machine W) :
  needs_search s = false ->
  resolveSymbol B unicode s m = (Fulfilled (toUpperCase s), m).
Proof.
  unfold needs_search, resolveSymbol. intros ->. reflexivity.
Qed.

Lemma resolveSymbol_canonical (s : string) (m : Machine W) :
  test_A_Z_1_5 (toUpperCase s) = true ->
  resolveSymbol B unicode s m = (Fulfilled (toUpperCase s), m).
Proof.
  intros Ht. apply resolveSymbol_skip. now apply needs_search_canonical.
Qed.

Lemma resolveSymbol_search_run (s : string) (m : Machine W) :
  needs_search s = true ->
  exists m',
    resolveSymbol B unicode s m =
      (Fulfilled (first_hit_or (toUpperCase s) (fst (search_stocks B s (world m)))),
       m') /\
    page m' = page m /\
    world m' = snd (search_stocks B s (world m)) /\
    calls m' = calls m ++ [InvokeSearch s] /\
    console m' = console m
                   ++ match search_stocks B s (world m) with
                      | (Rejected e, _) =>
                          [ConsoleLog [Text "Search failed, trying original symbol:";
                                       Thrown e]]
                      | (out, _) =>
                          match hits_of out with
                          | h :: _ =>
                              [ConsoleLog
                                 [Text ("Found symbol: " ++ hit_symbol h
                                        ++ " for search: " ++ s)]]
                          | [] => []
                          end
                      end.
Proof.
  unfold needs_search, resolveSymbol, first_hit_or. intros ->. run.
  destruct (search_stocks B s (world m))
    as [ [ [ [ [ [ [ | h hs ] | ] ] | ] | e ] | e ] w' ]; simpl;
    eexists; (split; [reflexivity |]); simpl; rewrite ?app_nil_r; repeat split.
Qed.

Lemma resolveSymbol_search (s : string) (m : Machine W) :
  test_A_Z_1_5 (toUpperCase s) = false ->
  exists m',
    resolveSymbol B unicode s m =
      (Fulfilled (first_hit_or (toUpperCase s) (fst (search_stocks B s (world m)))),
       m') /\
    page m' = page m /\
    world m' = snd (search_stocks B s (world m)) /\
    calls m' = calls m ++ [InvokeSearch s].
Proof.
  intros H.
  destruct (resolveSymbol_search_run s m) as (m' & Hr & Hp & Hw & Hc & _).
  { unfold needs_search. rewrite H. apply orb_true_r. }
  exists m'. repeat split; assumption.
Qed.

(** Resolution never throws, leaves the page alone and makes at most one
    call, a search for the text as it is. *)
Lemma resolveSymbol_run (s : string) (m : Machine W) :
  exists sym m' q,
    resolveSymbol B unicode s m = (Fulfilled sym, m') /\
    page m' = page m /\
    calls m' = calls m ++ q /\
    (q = [] \/ q = [InvokeSearch s]).
Proof.
  destruct (needs_search s) eqn:E.
  - destruct (resolveSymbol_search_run s m E) as (m' & Hr & Hp & _ & Hc & _).
    eexists _, m', [InvokeSearch s]. rewrite Hr.
    repeat split; [assumption .. | now right].
  - exists (toUpperCase s), m, []. rewrite resolveSymbol_skip by exact E.
    rewrite app_nil_r. repeat split. now left.
Qed.

(** A run of [analyzeStock] on a text that is not blank. *)
Lemma analyzeStock_dispatched_run
      (m m2 : Machine W) (sym : string)
      (out : Settled (Response Json)) (w3 : W) :
  truthy (trim (searchSymbol (page m))) = true ->
  resolveSymbol B unicode (searchSymbol (page m)) (analyzing_started m)
    = (Fulfilled sym, m2) ->
  analysis B sym (world m2) = (out, w3) ->
  exists m',
    analyzeStock B unicode m = (Fulfilled tt, m') /\
    calls m' = calls m2 ++ InvokeAnalysis sym
                 :: match out with
                    | Fulfilled (Success _) =>
                        SelectPredictions
                          :: enrichment (delivered (fst (select_predictions B w3)))
                    | _ => []
                    end /\
    analyzing (page m') = false /\
    loading (page m') = loading (page m) /\
    match out with
    | Fulfilled (Success _) =>
        searchSymbol (page m') = EmptyString /\
        predictions (page m')
        = default (predictions (page m))
            (delivered (fst (select_predictions B w3)))
    | Fulfilled (Failure e) =>
        searchSymbol (page m') = searchSymbol (page m) /\
        predictions (page m') = predictions (page m) /\
        currentQuotes (page m') = currentQuotes (page m) /\
        console m' = console m2 ++ [ConsoleError [Text "Analysis error:"; Thrown e]]
    | Rejected e =>
        searchSymbol (page m') = searchSymbol (page m) /\
        predictions (page m') = predictions (page m) /\
        currentQuotes (page m') = currentQuotes (page m) /\
        console m' = console m2
                       ++ [ConsoleError [Text "Error analyzing stock:"; Thrown e]]
    end.
Proof.
  intros Ht Hres Hout.
  destruct (resolveSymbol_run (searchSymbol (page m)) (analyzing_started m))
    as (sym' & m2' & q & Hres' & Hp & _).
  rewrite Hres in Hres'. injection Hres' as <- <-.
  unfold analyzeStock. rewrite Ht. simpl.
  unfold bind at 1. unfold analyzing_started in Hres, Hp.
  destruct (setAnalyzing true m) as [[[]|e0] m1] eqn:E1; [| discriminate E1].
  simpl in Hres, Hp. unfold try_finally, try_catch. unfold bind at 1.
  rewrite Hres. unfold bind at 1, await. rewrite Hout.
  injection E1 as <-. simpl in Hp.
  destruct out as [[d|e1]|e1]; simpl.
  - unfold bind at 1.
    match goal with
    | |- context [fetchPredictions B ?m3] =>
        destruct (fetchPredictions_run B m3) as (m4 & -> & Hc & Hps & _ & Hl & _)
    end.
    simpl in Hc, Hps, Hl. rewrite Hp in Hps, Hl. simpl in Hps, Hl. run.
    eexists. split; [reflexivity |]. simpl.
    rewrite Hc, <- app_assoc. repeat split; assumption.
  - run. rewrite Hp. simpl. eexists. split; [reflexivity |]. simpl.
    repeat split.
  - run. rewrite Hp. simpl. eexists. split; [reflexivity |]. simpl.
    repeat split.
Qed.

End Analyze.

(** * The page's behaviour *)

(** ** Initialisation *)
Section Initialisation.

Context {W : Type} (B : Backend W).

(** C1, as amended.  When the first read of the predictions table answers
    with an error (and so without data), on a day whose group of trending
    symbols is [group], [initializePage] does not hand the error to its
    caller: it takes the missing data for an empty table, makes one
    analysis call per symbol of the group, in order, then reads the table
    exactly once more, after the batch, and completes normally. *)
Theorem initializePage_read_error_enters_fallback
        (m : Machine W) (e : JsError) (w1 : W) (group : list string) :
  select_predictions B (world m) = (Fulfilled (Failure e), w1) ->
  todaysTrending (zone B) (Date_now B w1) = Some group ->
  exists m' rest,
    initializePage B m = (Fulfilled tt, m') /\
    calls m' = calls m ++ SelectPredictions :: map InvokeAnalysis group
                 ++ SelectPredictions :: rest /\
    reads rest = 0%nat /\ analysis_requests rest = [].
Proof.
  intros Hr Hg.
  destruct (initializePage_fallback_run B m (Failure e) w1 group Hr eq_refl Hg)
    as (m' & Hrun & Hc & _).
  eexists m', _. split; [exact Hrun |]. split; [exact Hc |].
  split; [apply reads_enrichment | apply analysis_requests_enrichment].
Qed.

(** C2.  When the first read finds the table empty, [initializePage]
    makes exactly one analysis call per symbol of today's group, in the
    group's order, whatever the services answer to each of them: a failed
    call for one symbol does not stop the calls for the later ones. *)
Theorem initializePage_dispatches_every_trending_symbol
        (m : Machine W) (d : option (list Prediction)) (w1 : W)
        (group : list string) :
  select_predictions B (world m) = (Fulfilled (Success d), w1) ->
  default [] d = [] ->
  todaysTrending (zone B) (Date_now B w1) = Some group ->
  exists m' extra,
    initializePage B m = (Fulfilled tt, m') /\
    calls m' = calls m ++ extra /\
    analysis_requests extra = group /\
    length (analysis_requests extra) = length group.
Proof.
  intros Hr Hd Hg.
  destruct (initializePage_fallback_run B m (Success d) w1 group Hr Hd Hg)
    as (m' & Hrun & Hc & _).
  eexists m', (fallback_calls group _). split; [exact Hrun |].
  split; [exact Hc |].
  rewrite analysis_requests_fallback. split; reflexivity.
Qed.


Lemma enrichment_requests_for (got : option (list Prediction)) :
  enrichment got = map InvokeQuotes (requests_for (default [] got)).
Proof. destruct got as [[|p ps]|]; reflexivity. Qed.

(** The requests for the list [l]: none for no prediction, else one that
    names the symbols of [l], each once. *)
Lemma requests_for_spec (l : list Prediction) :
  match l with
  | [] => requests_for l = []
  | p :: ps =>
      exists symbols,
        requests_for l = [symbols] /\ NoDup symbols /\
        (forall s, s ∈ symbols <-> exists q, q ∈ p :: ps /\ symbol q = s)
  end.
Proof.
  destruct l as [|p ps]; [reflexivity |].
  exists (spread_Set (map symbol (p :: ps))). split; [reflexivity |].
  split; [apply spread_Set_NoDup |].
  intros s. rewrite spread_Set_elem, list_elem_of_fmap.
  split; intros (q & H1 & H2); exists q;
    [split; [exact H2 | now symmetry] | split; [now symmetry | exact H1]].
Qed.

(** C9, as amended.  A run of [initializePage] that obtains one or more
    predictions ends by one single batched quote request: the request is
    the last call of the run, the only quote request, and names the symbols
    of the predictions obtained, each once.  A run that obtains no
    prediction (the table stays empty, or cannot be read) makes no quote
    request at all.  No run makes one request per prediction or passes a
    symbol twice. *)
Theorem initializePage_enrichment_request (m : Machine W) :
  exists before requests,
    calls (snd (initializePage B m))
    = calls m ++ before ++ map InvokeQuotes requests /\
    quote_requests before = [] /\
    match obtained B (world m) with
    | Some (p :: ps) =>
        predictions (page (snd (initializePage B m))) = p :: ps /\
        exists symbols,
          requests = [symbols] /\ NoDup symbols /\
          (forall s, s ∈ symbols <-> exists q, q ∈ p :: ps /\ symbol q = s)
    | _ => requests = []
    end.
Proof.
  assert (Hfb : forall r w1,
             select_predictions B (world m) = (Fulfilled r, w1) ->
             default [] (data r) = [] ->
             let got := match todaysTrending (zone B) (Date_now B w1) with
                        | Some group =>
                            delivered (fst (select_predictions B
                                              (after_batch B group w1)))
                        | None => None
                        end in
             exists before requests,
               calls (snd (initializePage B m))
               = calls m ++ before ++ map InvokeQuotes requests /\
               quote_requests before = [] /\
               match got with
               | Some (p :: ps) =>
                   predictions (page (snd (initializePage B m))) = p :: ps /\
                   exists symbols,
                     requests = [symbols] /\ NoDup symbols /\
                     (forall s, s ∈ symbols
                                <-> exists q, q ∈ p :: ps /\ symbol q = s)
               | _ => requests = []
               end).
  { intros r w1 Hr Hd got. subst got.
    destruct (todaysTrending (zone B) (Date_now B w1)) as [group|] eqn:Hg.
    - destruct (initializePage_fallback_run B m r w1 group Hr Hd Hg)
        as (m' & -> & Hc & Hps & _).
      simpl.
      set (got := delivered (fst (select_predictions B (after_batch B group w1)))) in *.
      exists (SelectPredictions :: map InvokeAnalysis group ++ [SelectPredictions]),
        (requests_for (default [] got)).
      split.
      { rewrite Hc, enrichment_requests_for. simpl. rewrite <- app_assoc.
        reflexivity. }
      split.
      { change (SelectPredictions :: ?l) with ([SelectPredictions] ++ l).
        now rewrite !quote_requests_app, quote_requests_batch. }
      destruct got as [[|p ps]|]; [reflexivity | | reflexivity].
      split; [exact Hps |]. apply (requests_for_spec (p :: ps)).
    - destruct (initializePage_no_group_run B m r w1 Hr Hd Hg)
        as (e & m' & -> & Hc & _).
      simpl. exists [SelectPredictions], []. rewrite Hc, app_nil_r.
      repeat split. }
  unfold obtained.
  destruct (select_predictions B (world m)) as [[r|e] w1] eqn:Hr.
  - destruct (data r) as [[|p ps]|] eqn:Hd.
    + apply (Hfb r w1 eq_refl). now rewrite Hd.
    + destruct (initializePage_existing_run B m r w1 p ps Hr Hd)
        as (m' & -> & Hc & Hps & _).
      simpl. exists [SelectPredictions], (requests_for (p :: ps)).
      split; [exact Hc |]. split; [reflexivity |].
      split; [exact Hps |]. apply (requests_for_spec (p :: ps)).
    + apply (Hfb r w1 eq_refl). now rewrite Hd.
  - destruct (initializePage_rejected_run B m e w1 Hr) as (m' & -> & Hc & _).
    simpl. exists [SelectPredictions], []. rewrite Hc, app_nil_r. repeat split.
Qed.

End Initialisation.

(** ** Quotes *)
Section Quotes.

Context {W : Type} (B : Backend W).

(** C8, as amended.  When the quote call fails (the client throws or
    answers with an error), [fetchCurrentQuotes] does not pass the failure
    on: it logs it with [console.error], completes normally and leaves the
    page, and so the quote map, as it was before the call.  The map is
    empty afterwards only if it was empty before. *)
Theorem fetchCurrentQuotes_failure_keeps_page
        (symbols : list string) (m : Machine W) (e : JsError) :
  failure (fst (current_quotes B symbols (world m))) = Some e ->
  exists m',
    fetchCurrentQuotes B symbols m = (Fulfilled tt, m') /\
    page m' = page m /\
    calls m' = calls m ++ [InvokeQuotes symbols] /\
    console m' = console m
                   ++ [ConsoleError [Text "Error fetching current quotes:";
                                     Thrown e]].
Proof.
  intros Hf. unfold fetchCurrentQuotes. run.
  destruct (current_quotes B symbols (world m)) as [[[d|e']|e'] w']; simpl in *;
    try discriminate Hf; injection Hf as ->;
    (eexists; split; [reflexivity |]; repeat split).
Qed.

End Quotes.

(** ** On-demand analysis *)
Section OnDemand.

Context {W : Type} (B : Backend W) (unicode : JsString.CaseMapping).

Import JsString.

Local Abbreviation toUpperCase := (upper_of unicode).

(** C4.  When the text of the search box, upper-cased by the host, is one
    to five letters of [A-Z], the symbol to analyse is the upper-cased text
    and no search is made: the resolution changes nothing, and the whole
    run of [analyzeStock] sends no search request, and its analysis
    request (made unless the text is blank) is for that symbol. *)
Theorem analyzeStock_canonical_input_skips_search (m : Machine W) :
  test_A_Z_1_5 (toUpperCase (searchSymbol (page m))) = true ->
  (forall m1, resolveSymbol B unicode (searchSymbol (page m)) m1
              = (Fulfilled (toUpperCase (searchSymbol (page m))), m1)) /\
  exists extra,
    calls (snd (analyzeStock B unicode m)) = calls m ++ extra /\
    search_requests extra = [] /\
    analysis_requests extra
    = if truthy (trim (searchSymbol (page m)))
      then [toUpperCase (searchSymbol (page m))] else [].
Proof.
  intros Ht. split; [intros m1; now apply resolveSymbol_canonical |].
  destruct (truthy (trim (searchSymbol (page m)))) eqn:Htrim.
  - pose proof (resolveSymbol_canonical B unicode _ (analyzing_started m) Ht) as Hres.
    set (sym := toUpperCase (searchSymbol (page m))) in *.
    destruct (analysis B sym (world (analyzing_started m))) as [out w3] eqn:Hout.
    destruct (analyzeStock_dispatched_run B unicode m _ sym out w3 Htrim Hres Hout)
      as (m' & -> & Hc & _).
    simpl. eexists. split; [exact Hc |].
    destruct out as [[d|e]|e]; try (split; reflexivity).
    change (InvokeAnalysis sym :: SelectPredictions :: ?l)
      with ([InvokeAnalysis sym; SelectPredictions] ++ l).
    rewrite search_requests_app, analysis_requests_app,
      search_requests_enrichment, analysis_requests_enrichment.
    split; reflexivity.
  - exists []. unfold analyzeStock. rewrite Htrim. simpl.
    rewrite app_nil_r. repeat split.
Qed.

(** C5.  When the upper-cased text is not one to five letters of [A-Z],
    one search is made, for the text as it is, and the resolution always
    yields a symbol: the upper-cased text when the search fails (the client
    throws or answers with an error) or delivers no hit, and the symbol of
    the first hit when it delivers one or more. *)
Theorem resolveSymbol_falls_back_or_takes_first_hit
        (s : string) (m : Machine W) :
  test_A_Z_1_5 (toUpperCase s) = false ->
  let out := fst (search_stocks B s (world m)) in
  exists sym m',
    resolveSymbol B unicode s m = (Fulfilled sym, m') /\
    calls m' = calls m ++ [InvokeSearch s] /\
    page m' = page m /\
    (failure out <> None -> sym = toUpperCase s) /\
    (hits_of out = [] -> sym = toUpperCase s) /\
    (forall h hs, hits_of out = h :: hs -> sym = hit_symbol h).
Proof.
  intros Ht out.
  destruct (resolveSymbol_search B unicode s m Ht) as (m' & Hrun & Hp & _ & Hc).
  eexists _, m'. split; [exact Hrun |]. split; [exact Hc |].
  split; [exact Hp |]. fold out. unfold first_hit_or.
  split; [| split].
  - intros Hf. destruct out as [[d|e]|e]; [now contradiction Hf | reflexivity ..].
  - intros ->. reflexivity.
  - intros h hs ->. reflexivity.
Qed.

(** C7, as amended.  When the analysis call of [analyzeStock] (made for the
    resolved symbol, on a text that is not blank) answers with an error,
    the failure is not passed on to the caller: it is logged with
    [console.error('Analysis error:', error)] and the run completes
    normally.  The analysis call is the last call of the run, so the
    predictions table is not read again, and the page keeps its prediction
    list (and its quotes and search text). *)
Theorem analyzeStock_failed_dispatch_skips_refresh
        (m m2 : Machine W) (sym : string) (w3 : W) (e : JsError) :
  truthy (trim (searchSymbol (page m))) = true ->
  resolveSymbol B unicode (searchSymbol (page m)) (analyzing_started m)
    = (Fulfilled sym, m2) ->
  analysis B sym (world m2) = (Fulfilled (Failure e), w3) ->
  exists m' before,
    analyzeStock B unicode m = (Fulfilled tt, m') /\
    calls m' = calls m ++ before ++ [InvokeAnalysis sym] /\
    reads before = 0%nat /\ analysis_requests before = [] /\
    quote_requests before = [] /\
    console m' = console m2 ++ [ConsoleError [Text "Analysis error:"; Thrown e]] /\
    predictions (page m') = predictions (page m) /\
    currentQuotes (page m') = currentQuotes (page m) /\
    searchSymbol (page m') = searchSymbol (page m).
Proof.
  intros Htrim Hres Hout.
  destruct (analyzeStock_dispatched_run B unicode m m2 sym _ w3 Htrim Hres Hout)
    as (m' & Hrun & Hc & _ & _ & Hs & Hps & Hq & Hlog).
  destruct (resolveSymbol_run B unicode (searchSymbol (page m)) (analyzing_started m))
    as (sym' & m2' & q & Hres' & _ & Hc2 & Hq2).
  rewrite Hres in Hres'. injection Hres' as <- <-.
  exists m', q. split; [exact Hrun |].
  split; [rewrite Hc, Hc2, <- app_assoc; reflexivity |].
  destruct Hq2 as [-> | ->]; repeat split; assumption.
Qed.

(** C10.  On a text that is empty or all white space (any of ECMAScript's
    white space and line terminators) [analyzeStock] returns at once: no
    call is made and the page, the services and the console are as
    before. *)
Theorem analyzeStock_blank_input_is_noop (m : Machine W) :
  isBlank (searchSymbol (page m)) = true ->
  analyzeStock B unicode m = (Fulfilled tt, m).
Proof.
  intros H. unfold analyzeStock.
  apply trim_falsy_iff in H. rewrite H. reflexivity.
Qed.

End OnDemand.

(** ** Today's symbols *)
Section Rotation.

Import JsDate.

(** In a zone without daylight-saving time, two calls on one local day
    get the same group. *)
Lemma todaysTrending_fixedZone_same_day (offset t1 t2 : Z) :
  Day (LocalTime (fixedZone offset) t1) = Day (LocalTime (fixedZone offset) t2) ->
  todaysTrending (fixedZone offset) t1 = todaysTrending (fixedZone offset) t2.
Proof.
  intros H. unfold todaysTrending.
  now rewrite (dayOfYear_fixedZone_same_day offset t1 t2 H).
Qed.

(** C6.  The group is the table's entry at the day number modulo the
    table's length, but the day number counts spans of 24 hours from the
    local midnight of the last 31 December: while daylight-saving time is
    in force the first hour of a local day still has the number of the day
    before.  In New York on 1 July 2025 a call at 00:30 and a call at
    12:00, both local time, get different groups. *)
Theorem todaysTrending_changes_within_a_day_under_dst :
  let half_past_midnight := 1751344200000 in
  let midday := 1751385600000 in
  Day (LocalTime newYork2025 half_past_midnight)
    = Day (LocalTime newYork2025 midday) /\
  dayOfYear newYork2025 half_past_midnight = 181 /\
  dayOfYear newYork2025 midday = 182 /\
  todaysTrending newYork2025 half_past_midnight
    = Some ["MSFT"; "GOOGL"; "META"]%string /\
  todaysTrending newYork2025 midday = Some ["AMZN"; "NFLX"; "AMD"]%string.
Proof. vm_compute. repeat split. Qed.

End Rotation.

(** * The page on concrete inputs *)

Local Open Scope string_scope.
Local Open Scope list_scope.

(** The table cannot be read: the run completes normally, the error is not
    returned, and the three analysis calls of the day are made. *)
Lemma initializePage_read_error_counterexample :
  let B := Demo.backend Demo.utc in
  let m := Demo.boot Demo.unreadable mounted in
  let e := ServiceError "relation unavailable" in
  select_predictions B (world m) = (Fulfilled (Failure e), Demo.unreadable) /\
  fst (initializePage B m) = Fulfilled tt /\
  fst (initializePage B m) <> Rejected e /\
  analysis_requests (calls (snd (initializePage B m))) = ["AMZN"; "NFLX"; "AMD"] /\
  analysis_requests (calls (snd (initializePage B m))) <> [].
Proof. vm_compute. repeat split; discriminate. Qed.

(** The same run, by the general statement. *)
Lemma initializePage_read_error_enters_fallback_witness :
  let B := Demo.backend Demo.utc in
  let m := Demo.boot Demo.unreadable mounted in
  let group := ["AMZN"; "NFLX"; "AMD"] in
  select_predictions B (world m)
    = (Fulfilled (Failure (ServiceError "relation unavailable")), Demo.unreadable) /\
  todaysTrending (zone B) (Date_now B Demo.unreadable) = Some group /\
  exists m' rest,
    initializePage B m = (Fulfilled tt, m') /\
    calls m' = calls m ++ SelectPredictions :: map InvokeAnalysis group
                 ++ SelectPredictions :: rest /\
    reads rest = 0%nat /\ analysis_requests rest = [].
Proof.
  split; [reflexivity |]. split; [reflexivity |].
  apply (initializePage_read_error_enters_fallback
           (Demo.backend Demo.utc) (Demo.boot Demo.unreadable mounted)
           (ServiceError "relation unavailable") Demo.unreadable
           ["AMZN"; "NFLX"; "AMD"]); reflexivity.
Defined.

(** An empty table; two of the three analysis calls fail, all three are made. *)
Lemma initializePage_dispatches_every_trending_symbol_witness :
  let B := Demo.backend Demo.utc in
  let m := Demo.boot Demo.cold mounted in
  select_predictions B (world m) = (Fulfilled (Success (Some [])), Demo.cold) /\
  failure (fst (analysis B "AMZN" Demo.cold)) <> None /\
  failure (fst (analysis B "NFLX" Demo.cold)) <> None /\
  exists m' extra,
    initializePage B m = (Fulfilled tt, m') /\
    calls m' = calls m ++ extra /\
    analysis_requests extra = ["AMZN"; "NFLX"; "AMD"] /\
    length (analysis_requests extra) = length ["AMZN"; "NFLX"; "AMD"].
Proof.
  split; [reflexivity |]. split; [discriminate |]. split; [discriminate |].
  apply (initializePage_dispatches_every_trending_symbol
           (Demo.backend Demo.utc) (Demo.boot Demo.cold mounted)
           (Some []) Demo.cold ["AMZN"; "NFLX"; "AMD"]); reflexivity.
Defined.


(** An empty table and no analysis succeeds: the run completes with no
    prediction and without a quote request. *)
Lemma initializePage_enrichment_counterexample :
  let B := Demo.backend Demo.utc in
  let m := Demo.boot Demo.barren mounted in
  fst (initializePage B m) = Fulfilled tt /\
  predictions (page (snd (initializePage B m))) = [] /\
  calls (snd (initializePage B m))
  = [SelectPredictions; InvokeAnalysis "AMZN"; InvokeAnalysis "NFLX";
     InvokeAnalysis "AMD"; SelectPredictions] /\
  quote_requests (calls (snd (initializePage B m))) = [].
Proof. vm_compute. repeat split. Qed.

(** Three predictions over two symbols: the run ends by one request, each
    symbol once. *)
Example initializePage_enrichment_warm :
  let B := Demo.backend Demo.utc in
  let m := Demo.boot Demo.warm mounted in
  obtained B (world m)
    = Some [Demo.forecast "AAPL"; Demo.forecast "MSFT"; Demo.forecast "AAPL"] /\
  calls (snd (initializePage B m))
    = [SelectPredictions; InvokeQuotes ["AAPL"; "MSFT"]].
Proof. split; reflexivity. Qed.

(** The quote service is down while the page holds a quote: the quote is
    still there after the call. *)
Lemma fetchCurrentQuotes_failure_counterexample :
  let B := Demo.backend Demo.utc in
  let m := Demo.boot Demo.warm (Demo.typed "") in
  failure (fst (current_quotes B ["TSLA"] (world m)))
    = Some (ServiceError "quotes unavailable") /\
  fst (fetchCurrentQuotes B ["TSLA"] m) = Fulfilled tt /\
  currentQuotes (page (snd (fetchCurrentQuotes B ["TSLA"] m))) !! "TSLA"
    = Some (Demo.quote "TSLA") /\
  currentQuotes (page (snd (fetchCurrentQuotes B ["TSLA"] m))) <> ∅.
Proof.
  cbv zeta.
  assert (H : currentQuotes
                (page (snd (fetchCurrentQuotes (Demo.backend Demo.utc) ["TSLA"]
                              (Demo.boot Demo.warm (Demo.typed "")))))
              !! "TSLA" = Some (Demo.quote "TSLA")) by (vm_compute; reflexivity).
  split; [reflexivity |]. split; [reflexivity |]. split; [exact H |].
  intros He. rewrite He, lookup_empty in H. discriminate H.
Qed.

(** The same call, by the general statement. *)
Lemma fetchCurrentQuotes_failure_keeps_page_witness :
  let B := Demo.backend Demo.utc in
  let m := Demo.boot Demo.warm (Demo.typed "") in
  failure (fst (current_quotes B ["TSLA"] (world m)))
    = Some (ServiceError "quotes unavailable") /\
  exists m',
    fetchCurrentQuotes B ["TSLA"] m = (Fulfilled tt, m') /\
    page m' = page m /\
    calls m' = calls m ++ [InvokeQuotes ["TSLA"]] /\
    console m' = console m
                   ++ [ConsoleError [Text "Error fetching current quotes:";
                                     Thrown (ServiceError "quotes unavailable")]].
Proof.
  split; [reflexivity |].
  apply (fetchCurrentQuotes_failure_keeps_page
           (Demo.backend Demo.utc) ["TSLA"] (Demo.boot Demo.warm (Demo.typed ""))
           (ServiceError "quotes unavailable")); reflexivity.
Defined.

(** [aapl] is analysed as [AAPL] without a search. *)
Lemma analyzeStock_canonical_input_skips_search_witness :
  let B := Demo.backend Demo.utc in
  let m := Demo.boot Demo.cold (Demo.typed "aapl") in
  JsString.test_A_Z_1_5 (JsString.upper_of latin1 "aapl") = true /\
  calls (snd (analyzeStock B latin1 m))
    = [InvokeAnalysis "AAPL"; SelectPredictions; InvokeQuotes ["AAPL"]] /\
  (forall m1, resolveSymbol B latin1 "aapl" m1
              = (Fulfilled (JsString.upper_of latin1 "aapl"), m1)) /\
  exists extra,
    calls (snd (analyzeStock B latin1 m)) = calls m ++ extra /\
    search_requests extra = [] /\
    analysis_requests extra
    = if JsString.truthy (JsString.trim "aapl")
      then [JsString.upper_of latin1 "aapl"] else [].
Proof.
  split; [reflexivity |]. split; [reflexivity |].
  apply (analyzeStock_canonical_input_skips_search
           (Demo.backend Demo.utc) latin1
           (Demo.boot Demo.cold (Demo.typed "aapl"))); reflexivity.
Defined.

(** [brk.b] is searched for; the search throws and the symbol is the
    upper-cased text. *)
Lemma resolveSymbol_falls_back_or_takes_first_hit_witness :
  let B := Demo.backend Demo.utc in
  let m := Demo.boot Demo.barren (Demo.typed "brk.b") in
  let out := fst (search_stocks B "brk.b" (world m)) in
  JsString.test_A_Z_1_5 (JsString.upper_of latin1 "brk.b") = false /\
  failure out = Some (ServiceError "search unavailable") /\
  fst (resolveSymbol B latin1 "brk.b" m) = Fulfilled "BRK.B" /\
  exists sym m',
    resolveSymbol B latin1 "brk.b" m = (Fulfilled sym, m') /\
    calls m' = calls m ++ [InvokeSearch "brk.b"] /\
    page m' = page m /\
    (failure out <> None -> sym = JsString.upper_of latin1 "brk.b") /\
    (hits_of out = [] -> sym = JsString.upper_of latin1 "brk.b") /\
    (forall h hs, hits_of out = h :: hs -> sym = hit_symbol h).
Proof.
  split; [reflexivity |]. split; [reflexivity |]. split; [reflexivity |].
  apply (resolveSymbol_falls_back_or_takes_first_hit
           (Demo.backend Demo.utc) latin1 "brk.b"
           (Demo.boot Demo.barren (Demo.typed "brk.b"))); reflexivity.
Defined.

(** The three outcomes of a search: a hit, no hit, a failure. *)
Example resolveSymbol_outcomes :
  resolveSymbol (Demo.backend Demo.utc) latin1 "apple inc"
    (Demo.boot Demo.cold (Demo.typed "apple inc"))
  = (Fulfilled "AAPL",
     {| page := Demo.typed "apple inc"; world := Demo.cold;
        calls := [InvokeSearch "apple inc"];
        console := [ConsoleLog [Text "Found symbol: AAPL for search: apple inc"]] |}) /\
  resolveSymbol (Demo.backend Demo.utc) latin1 "apple inc"
    (Demo.boot Demo.warm (Demo.typed "apple inc"))
  = (Fulfilled "APPLE INC",
     {| page := Demo.typed "apple inc"; world := Demo.warm;
        calls := [InvokeSearch "apple inc"]; console := [] |}) /\
  fst (resolveSymbol (Demo.backend Demo.utc) latin1 "brk.b"
         (Demo.boot Demo.barren (Demo.typed "brk.b"))) = Fulfilled "BRK.B".
Proof. repeat split. Qed.

(** The analysis of [ZZZZ] answers with an error: the run completes
    normally, so the failure does not reach the caller. *)
Lemma analyzeStock_failed_dispatch_counterexample :
  let B := Demo.backend Demo.utc in
  let m := Demo.boot Demo.warm (Demo.typed "zzzz") in
  let e := ServiceError "analysis failed" in
  analysis B "ZZZZ" (world m) = (Fulfilled (Failure e), Demo.warm) /\
  calls (snd (analyzeStock B latin1 m)) = [InvokeAnalysis "ZZZZ"] /\
  fst (analyzeStock B latin1 m) = Fulfilled tt /\
  fst (analyzeStock B latin1 m) <> Rejected e.
Proof. vm_compute. repeat split; discriminate. Qed.

(** The same run, by the general statement. *)
Lemma analyzeStock_failed_dispatch_skips_refresh_witness :
  let B := Demo.backend Demo.utc in
  let m := Demo.boot Demo.warm (Demo.typed "zzzz") in
  let e := ServiceError "analysis failed" in
  JsString.truthy (JsString.trim (searchSymbol (page m))) = true /\
  resolveSymbol B latin1 (searchSymbol (page m)) (analyzing_started m)
    = (Fulfilled "ZZZZ", analyzing_started m) /\
  analysis B "ZZZZ" (world (analyzing_started m))
    = (Fulfilled (Failure e), Demo.warm) /\
  exists m' before,
    analyzeStock B latin1 m = (Fulfilled tt, m') /\
    calls m' = calls m ++ before ++ [InvokeAnalysis "ZZZZ"] /\
    reads before = 0%nat /\ analysis_requests before = [] /\
    quote_requests before = [] /\
    console m' = console (analyzing_started m)
                   ++ [ConsoleError [Text "Analysis error:"; Thrown e]] /\
    predictions (page m') = predictions (page m) /\
    currentQuotes (page m') = currentQuotes (page m) /\
    searchSymbol (page m') = searchSymbol (page m).
Proof.
  split; [reflexivity |]. split; [reflexivity |]. split; [reflexivity |].
  apply (analyzeStock_failed_dispatch_skips_refresh
           (Demo.backend Demo.utc) latin1
           (Demo.boot Demo.warm (Demo.typed "zzzz"))
           (analyzing_started (Demo.boot Demo.warm (Demo.typed "zzzz")))
           "ZZZZ" Demo.warm (ServiceError "analysis failed")); reflexivity.
Defined.

(** A no-break space (U+00A0), a tab and a space in the search box. *)
Lemma analyzeStock_blank_input_is_noop_witness :
  let B := Demo.backend Demo.utc in
  let text := String (ascii_of_nat 194) (String (ascii_of_nat 160)
                (String (ascii_of_nat 9) " ")) in
  let m := Demo.boot Demo.cold (Demo.typed text) in
  JsString.isBlank (searchSymbol (page m)) = true /\
  analyzeStock B latin1 m = (Fulfilled tt, m).
Proof.
  split; [reflexivity |].
  apply (analyzeStock_blank_input_is_noop
           (Demo.backend Demo.utc) latin1
           (Demo.boot Demo.cold
              (Demo.typed (String (ascii_of_nat 194) (String (ascii_of_nat 160)
                             (String (ascii_of_nat 9) " "))))));
    reflexivity.
Defined.

(** * Further properties of the page's functions *)

(** The own properties of the object built by the [reduce] of lines
    131-134, from the object [start]. *)
Definition quotes_reduce (qs : list CurrentQuote)
           (start : gmap string CurrentQuote) : gmap string CurrentQuote :=
  fold_left (fun acc quote => assign_own acc (q_symbol quote) quote) qs start.

(** A letter of either case. *)
Definition isLetter (c : ascii) : bool :=
  JsString.isLowerAZ c || JsString.isUpperAZ c.

(** One to five letters of either case. *)
Definition letters_1_5 (s : string) : bool :=
  (1 <=? String.length s)%nat && (String.length s <=? 5)%nat
  && JsString.all isLetter s.

(** Further scripted services. *)
Module Scenes.

Local Open Scope string_scope.

(** A later quote of [TSLA], at another price. *)
Definition requote (sym : string) : CurrentQuote :=
  {| q_symbol := sym;
     price := S754_finite false 205 (-1);        (* 102.5 *)
     change := S754_finite false 3 (-1);         (* 1.5 *)
     changePercent := S754_finite false 3 (-1) |}.

(** The quote service answers with two quotes of one symbol, one of
    another and one named [__proto__]. *)
Definition repeated : Demo.World :=
  {| Demo.table := [Demo.forecast "AAPL"]; Demo.table_down := false;
     Demo.rejected_symbols := []; Demo.crashing_symbols := [];
     Demo.live := Some [Demo.quote "AAPL"; Demo.quote "__proto__";
                        Demo.quote "MSFT"; requote "AAPL"];
     Demo.found := Some []; Demo.clock := Demo.noon |}.

(** Services whose quote call answers [{ data: d, error: null }] and whose
    other calls answer without data. *)
Definition answering (d : option QuotesPayload) : Backend unit :=
  {| select_predictions := fun w => (Fulfilled (Success None), w);
     analysis := fun _ w => (Fulfilled (Success None), w);
     current_quotes := fun _ w => (Fulfilled (Success d), w);
     search_stocks := fun _ w => (Fulfilled (Success None), w);
     Date_now := fun _ => Demo.noon;
     zone := Demo.utc |}.

End Scenes.

(** ** Quotes *)
Section MoreQuotes.

Context {W : Type} (B : Backend W).

Lemma quotes_reduce_cons (q : CurrentQuote) (qs : list CurrentQuote)
      (start : gmap string CurrentQuote) :
  quotes_reduce (q :: qs) start
  = quotes_reduce qs (assign_own start (q_symbol q) q).
Proof. reflexivity. Qed.

Lemma quotes_reduce_other (qs : list CurrentQuote)
      (start : gmap string CurrentQuote) (k : string) :
  (forall q, q ∈ qs -> q_symbol q <> k) ->
  quotes_reduce qs start !! k = start !! k.
Proof.
  revert start.
  induction qs as [|q qs IH]; intros start Hk; [reflexivity |].
  rewrite quotes_reduce_cons, IH by (intros q' Hq'; apply Hk; now right).
  unfold assign_own. case_bool_decide; [reflexivity |].
  apply lookup_insert_ne, Hk. now left.
Qed.

(** No quote becomes the own property [__proto__]. *)
Lemma quotes_reduce_proto (qs : list CurrentQuote)
      (start : gmap string CurrentQuote) :
  quotes_reduce qs start !! "__proto__" = start !! "__proto__".
Proof.
  revert start.
  induction qs as [|q qs IH]; intros start; [reflexivity |].
  rewrite quotes_reduce_cons, IH. unfold assign_own.
  case_bool_decide as Hq; [reflexivity |]. now apply lookup_insert_ne.
Qed.

Lemma quotes_reduce_last (l1 l2 : list CurrentQuote) (q : CurrentQuote)
      (start : gmap string CurrentQuote) :
  q_symbol q <> "__proto__" ->
  (forall q', q' ∈ l2 -> q_symbol q' <> q_symbol q) ->
  quotes_reduce (l1 ++ q :: l2) start !! q_symbol q = Some q.
Proof.
  intros Hq Hl2. unfold quotes_reduce. rewrite fold_left_app.
  change (quotes_reduce (q :: l2) (quotes_reduce l1 start) !! q_symbol q = Some q).
  rewrite quotes_reduce_cons, quotes_reduce_other by exact Hl2.
  unfold assign_own. rewrite bool_decide_eq_false_2 by exact Hq.
  apply lookup_insert_eq.
Qed.

(** A quote call that answers with data sets the quote map to the
    [reduce] of the quotes over the empty object. *)
Lemma fetchCurrentQuotes_answered_run
      (symbols : list string) (m : Machine W) (d : QuotesPayload) (w' : W) :
  current_quotes B symbols (world m) = (Fulfilled (Success (Some d)), w') ->
  exists m',
    fetchCurrentQuotes B symbols m = (Fulfilled tt, m') /\
    currentQuotes (page m') = quotes_reduce (default [] (quotes d)) ∅ /\
    console m' = console m.
Proof.
  intros H. unfold fetchCurrentQuotes. run. rewrite H. simpl.
  eexists. split; [reflexivity |]. split; reflexivity.
Qed.

(** X1.  After a quote call that answers with a list of quotes, the own
    properties of the page's quote object are these: for each symbol other
    than [__proto__], the last quote of the list with that symbol; no
    property for a symbol that is not in the list, whatever the object held
    before; and no property [__proto__], a quote of that name being made
    the prototype instead. *)
Theorem fetchCurrentQuotes_last_quote_wins
        (symbols : list string) (m : Machine W)
        (qs : list CurrentQuote) (w' : W) :
  current_quotes B symbols (world m)
    = (Fulfilled (Success (Some {| quotes := Some qs |})), w') ->
  exists m',
    fetchCurrentQuotes B symbols m = (Fulfilled tt, m') /\
    (forall l1 q l2,
        qs = l1 ++ q :: l2 ->
        q_symbol q <> "__proto__" ->
        (forall q', q' ∈ l2 -> q_symbol q' <> q_symbol q) ->
        currentQuotes (page m') !! q_symbol q = Some q) /\
    (forall k, (forall q, q ∈ qs -> q_symbol q <> k) ->
               currentQuotes (page m') !! k = None) /\
    currentQuotes (page m') !! "__proto__" = None.
Proof.
  intros H.
  destruct (fetchCurrentQuotes_answered_run symbols m _ w' H) as (m' & Hrun & Hq & _).
  exists m'. split; [exact Hrun |]. rewrite Hq. simpl. split; [| split].
  - intros l1 q l2 -> Hp Hl2. now apply quotes_reduce_last.
  - intros k Hk. rewrite quotes_reduce_other by exact Hk. apply lookup_empty.
  - rewrite quotes_reduce_proto. apply lookup_empty.
Qed.

(** X2.  A quote call that answers with data but without a list of quotes,
    or with an empty list, empties the quote map of the page. *)
Theorem fetchCurrentQuotes_no_quotes_empties_map
        (symbols : list string) (m : Machine W) (d : QuotesPayload) (w' : W) :
  current_quotes B symbols (world m) = (Fulfilled (Success (Some d)), w') ->
  default [] (quotes d) = [] ->
  exists m',
    fetchCurrentQuotes B symbols m = (Fulfilled tt, m') /\
    currentQuotes (page m') = ∅.
Proof.
  intros H Hd.
  destruct (fetchCurrentQuotes_answered_run symbols m d w' H) as (m' & Hrun & Hq & _).
  exists m'. split; [exact Hrun |]. now rewrite Hq, Hd.
Qed.

(** X3.  A quote call that answers without an error and without data makes
    the read of [data.quotes] throw; the function catches the [TypeError],
    logs it and completes normally with the page as it was. *)
Theorem fetchCurrentQuotes_null_data_is_caught
        (symbols : list string) (m : Machine W) (w' : W) :
  current_quotes B symbols (world m) = (Fulfilled (Success None), w') ->
  exists m' msg,
    fetchCurrentQuotes B symbols m = (Fulfilled tt, m') /\
    page m' = page m /\
    console m' = console m
                   ++ [ConsoleError [Text "Error fetching current quotes:";
                                     Thrown (TypeError msg)]].
Proof.
  intros H. unfold fetchCurrentQuotes. run. rewrite H. simpl.
  eexists _, _. split; [reflexivity |]. split; reflexivity.
Qed.

End MoreQuotes.

(** ** The distinct symbols of a list *)
Section MoreDistinct.

Lemma distinct_from_snoc (seen l : list string) (x : string) :
  distinct_from seen (l ++ [x])
  = if bool_decide (x ∈ seen ++ l) then distinct_from seen l
    else distinct_from seen l ++ [x].
Proof.
  revert seen. induction l as [|y l IH]; intros seen; simpl.
  - rewrite app_nil_r. now destruct (bool_decide (x ∈ seen)).
  - destruct (bool_decide (y ∈ seen)) eqn:Ey.
    + rewrite IH. apply bool_decide_eq_true in Ey.
      assert (Hiff : x ∈ seen ++ l <-> x ∈ seen ++ y :: l).
      { rewrite !elem_of_app, elem_of_cons. split; [tauto |].
        intros [H | [-> | H]]; tauto. }
      destruct (bool_decide (x ∈ seen ++ l)) eqn:E1;
        destruct (bool_decide (x ∈ seen ++ y :: l)) eqn:E2; try reflexivity.
      * apply bool_decide_eq_true in E1. apply bool_decide_eq_false in E2. tauto.
      * apply bool_decide_eq_false in E1. apply bool_decide_eq_true in E2. tauto.
    + rewrite IH.
      assert (Hiff : x ∈ (y :: seen) ++ l <-> x ∈ seen ++ y :: l).
      { rewrite !elem_of_app, !elem_of_cons. tauto. }
      destruct (bool_decide (x ∈ (y :: seen) ++ l)) eqn:E1;
        destruct (bool_decide (x ∈ seen ++ y :: l)) eqn:E2; try reflexivity.
      * apply bool_decide_eq_true in E1. apply bool_decide_eq_false in E2. tauto.
      * apply bool_decide_eq_false in E1. apply bool_decide_eq_true in E2. tauto.
Qed.

(** X4.  [[...new Set(l)]] keeps the order of first occurrence: appending
    a symbol to the list appends it to the result if it is new, and changes
    nothing if the list had it already. *)
Theorem spread_Set_snoc (l : list string) (x : string) :
  spread_Set (l ++ [x])
  = if bool_decide (x ∈ l) then spread_Set l else spread_Set l ++ [x].
Proof. unfold spread_Set. now rewrite distinct_from_snoc. Qed.

Lemma distinct_from_fresh (seen l : list string) :
  NoDup l -> (forall x, x ∈ l -> x ∉ seen) -> distinct_from seen l = l.
Proof.
  revert seen. induction l as [|y l IH]; intros seen Hnd Hfresh; simpl;
    [reflexivity |].
  apply NoDup_cons in Hnd as [Hy Hnd].
  rewrite bool_decide_eq_false_2 by (apply Hfresh; now left).
  f_equal. apply IH; [exact Hnd |].
  intros x Hx [-> | Hs]%elem_of_cons; [contradiction |].
  apply (Hfresh x); [now right | exact Hs].
Qed.

(** X5.  A list without repetition is passed on as it is, in its order. *)
Theorem spread_Set_keeps_distinct_list (l : list string) :
  NoDup l -> spread_Set l = l.
Proof.
  intros Hl. apply distinct_from_fresh; [exact Hl |].
  intros x _ Hx. inversion Hx.
Qed.

(** Spreading a set twice gives what spreading it once gives. *)
Lemma spread_Set_idempotent (l : list string) :
  spread_Set (spread_Set l) = spread_Set l.
Proof.
  apply distinct_from_fresh; [apply spread_Set_NoDup |].
  intros x _ Hx. inversion Hx.
Qed.

End MoreDistinct.

(** ** Reading the predictions *)
Section MoreFetch.

Context {W : Type} (B : Backend W).

(** X6.  When the read of the table fails (the client throws or answers
    with an error) [fetchPredictions] does not pass the failure on: it
    completes normally, makes no quote request and leaves the page, with
    the predictions and quotes of the last successful read, as it was. *)
Theorem fetchPredictions_failure_keeps_page (m : Machine W) (e : JsError) :
  failure (fst (select_predictions B (world m))) = Some e ->
  exists m',
    fetchPredictions B m = (Fulfilled tt, m') /\
    page m' = page m /\
    calls m' = calls m ++ [SelectPredictions].
Proof.
  intros Hf.
  destruct (fetchPredictions_run B m) as (m' & Hrun & Hc & _ & _ & _ & _ & Hp).
  assert (Hd : delivered (fst (select_predictions B (world m))) = None).
  { destruct (fst (select_predictions B (world m))) as [[d|e']|e'];
      [discriminate Hf | reflexivity | reflexivity]. }
  exists m'. split; [exact Hrun |]. split; [now apply Hp |].
  now rewrite Hc, Hd.
Qed.

(** X7.  When the read succeeds with no prediction (an empty list, or no
    data) [fetchPredictions] clears the prediction list and makes no quote
    request: the quote map keeps the quotes of the predictions that were
    shown before. *)
Theorem fetchPredictions_empty_keeps_quotes
        (m : Machine W) (d : option (list Prediction)) (w' : W) :
  select_predictions B (world m) = (Fulfilled (Success d), w') ->
  default [] d = [] ->
  exists m',
    fetchPredictions B m = (Fulfilled tt, m') /\
    predictions (page m') = [] /\
    currentQuotes (page m') = currentQuotes (page m) /\
    calls m' = calls m ++ [SelectPredictions].
Proof.
  intros H Hd. unfold fetchPredictions. run. rewrite H. simpl.
  destruct d as [[|p ps]|]; try discriminate Hd; simpl;
    (eexists; split; [reflexivity |]; repeat split).
Qed.

(** X8.  When the read delivers predictions, [fetchPredictions] shows
    them and then makes one quote request; the request names exactly the
    symbols of the predictions, each once, and so no more symbols than
    there are predictions. *)
Theorem fetchPredictions_requests_the_symbols_shown
        (m : Machine W) (p : Prediction) (ps : list Prediction) (w' : W) :
  select_predictions B (world m) = (Fulfilled (Success (Some (p :: ps))), w') ->
  exists m' symbols,
    fetchPredictions B m = (Fulfilled tt, m') /\
    predictions (page m') = p :: ps /\
    calls m' = calls m ++ [SelectPredictions; InvokeQuotes symbols] /\
    NoDup symbols /\
    (forall s, s ∈ symbols <-> exists q, q ∈ p :: ps /\ symbol q = s) /\
    (length symbols <= length (p :: ps))%nat.
Proof.
  intros H.
  destruct (fetchPredictions_run B m) as (m' & Hrun & Hc & Hps & _).
  rewrite H in Hc, Hps. simpl in Hc, Hps.
  exists m', (spread_Set (map symbol (p :: ps))).
  split; [exact Hrun |]. split; [exact Hps |]. split; [exact Hc |].
  split; [apply spread_Set_NoDup |].
  assert (Hel : forall s, s ∈ spread_Set (map symbol (p :: ps))
                          <-> exists q, q ∈ p :: ps /\ symbol q = s).
  { intros s. rewrite spread_Set_elem, list_elem_of_fmap.
    split; intros (q & H1 & H2); exists q; [split; [exact H2 | now symmetry] |].
    split; [now symmetry | exact H1]. }
  split; [exact Hel |].
  rewrite <- (length_map symbol (p :: ps)).
  apply submseteq_length, NoDup_submseteq; [apply spread_Set_NoDup |].
  intros s Hs. exact (proj1 (spread_Set_elem _ s) Hs).
Qed.

End MoreFetch.

(** ** More on the initialisation *)
Section MoreInitialisation.

Context {W : Type} (B : Backend W).

(** The group of a day is an entry of the table. *)
Lemma todaysTrending_in_table (tz : JsDate.TimeZone) (t : Z) (group : list string) :
  todaysTrending tz t = Some group -> group ∈ allTrendingStocks.
Proof.
  unfold todaysTrending, index.
  destruct (_ <? 0)%Z; [discriminate |]. apply list_elem_of_lookup_2.
Qed.

(** X9.  When the first read delivers predictions, [initializePage] shows
    them and asks for their quotes, and that is all: no analysis is
    requested, the table is not read again, and the services are in the
    state the two calls left them in. *)
Theorem initializePage_reuses_existing_predictions
        (m : Machine W) (r : Response (list Prediction)) (w1 : W)
        (p : Prediction) (ps : list Prediction) :
  select_predictions B (world m) = (Fulfilled r, w1) ->
  data r = Some (p :: ps) ->
  let symbols := spread_Set (map symbol (p :: ps)) in
  exists m',
    initializePage B m = (Fulfilled tt, m') /\
    calls m' = calls m ++ [SelectPredictions; InvokeQuotes symbols] /\
    predictions (page m') = p :: ps /\
    world m' = snd (current_quotes B symbols w1).
Proof.
  intros Hr Hd symbols. unfold initializePage.
  unfold bind at 1, setLoading at 1, set_page.
  unfold bind at 1, await. simpl. rewrite Hr.
  unfold bind at 1. rewrite Hd.
  unfold bind at 1, setPredictions, set_page.
  match goal with
  | |- context [fetchCurrentQuotes B ?s ?m1] =>
      destruct (fetchCurrentQuotes_run B s m1) as (m2 & -> & Hw & Hc & Hf & _)
  end.
  destruct Hf as (_ & Hps & _). simpl in *. run.
  eexists. split; [reflexivity |]. simpl.
  rewrite Hc, <- app_assoc. repeat split; assumption.
Qed.

(** X10.  [initializePage] ends with the loading flag cleared exactly when
    it completes normally; when it throws (the first read throws, or the
    day has no group) the flag stays set. *)
Theorem initializePage_loading_flag (m : Machine W) :
  loading (page (snd (initializePage B m)))
  = match fst (initializePage B m) with
    | Fulfilled _ => false
    | Rejected _ => true
    end.
Proof.
  destruct (select_predictions B (world m)) as [[r|e] w1] eqn:Hr.
  - assert (Hfb : default [] (data r) = [] ->
                  loading (page (snd (initializePage B m)))
                  = match fst (initializePage B m) with
                    | Fulfilled _ => false
                    | Rejected _ => true
                    end).
    { intros Hd.
      destruct (todaysTrending (zone B) (Date_now B w1)) as [group|] eqn:Hg.
      - destruct (initializePage_fallback_run B m r w1 group Hr Hd Hg)
          as (m' & -> & _ & _ & Hl).
        exact Hl.
      - unfold initializePage, generateTrendingStocksPredictions. run.
        rewrite Hr.
        destruct (data r) as [[|p ps]|]; try discriminate Hd; simpl;
          rewrite Hg; reflexivity. }
    destruct (data r) as [[|p ps]|] eqn:Hd; [now apply Hfb | | now apply Hfb].
    destruct (initializePage_existing_run B m r w1 p ps Hr Hd)
      as (m' & -> & _ & _ & Hl).
    exact Hl.
  - unfold initializePage. run. now rewrite Hr.
Qed.

(** X11.  A run of [initializePage] makes at most six remote calls, at
    most two of them reads of the table, and requests an analysis only for
    symbols of the rotation table. *)
Theorem initializePage_calls_are_bounded (m : Machine W) :
  exists extra,
    calls (snd (initializePage B m)) = calls m ++ extra /\
    (length extra <= 6)%nat /\
    (reads extra <= 2)%nat /\
    (forall s, s ∈ analysis_requests extra ->
               exists group, group ∈ allTrendingStocks /\ s ∈ group).
Proof.
  assert (Hfb : forall r w1,
             select_predictions B (world m) = (Fulfilled r, w1) ->
             default [] (data r) = [] ->
             exists extra,
               calls (snd (initializePage B m)) = calls m ++ extra /\
               (length extra <= 6)%nat /\
               (reads extra <= 2)%nat /\
               (forall s, s ∈ analysis_requests extra ->
                          exists group, group ∈ allTrendingStocks /\ s ∈ group)).
  { intros r w1 Hr Hd.
    destruct (todaysTrending (zone B) (Date_now B w1)) as [group|] eqn:Hg.
    - destruct (initializePage_fallback_run B m r w1 group Hr Hd Hg)
        as (m' & -> & Hc & _).
      apply todaysTrending_in_table in Hg.
      pose proof (allTrendingStocks_groups group Hg) as Hlen.
      eexists (fallback_calls group _). split; [exact Hc |].
      rewrite reads_fallback, analysis_requests_fallback.
      split; [| split; [lia |]].
      + unfold fallback_calls. simpl. rewrite length_app, length_map, Hlen. simpl.
        match goal with
        | |- context [enrichment ?g] => destruct g as [[|? ?]|]; simpl; lia
        end.
      + intros s Hs. exists group. split; assumption.
    - destruct (initializePage_no_group_run B m r w1 Hr Hd Hg)
        as (e & m' & -> & Hc & _).
      eexists. split; [exact Hc |]. simpl.
      split; [lia |]. split; [unfold reads; simpl; lia |].
      intros s Hs. inversion Hs. }
  destruct (select_predictions B (world m)) as [[r|e] w1] eqn:Hr.
  - destruct (data r) as [[|p ps]|] eqn:Hd.
    + apply (Hfb r w1 eq_refl). now rewrite Hd.
    + destruct (initializePage_existing_run B m r w1 p ps Hr Hd)
        as (m' & -> & Hc & _).
      eexists. split; [exact Hc |]. simpl.
      split; [lia |]. split; [unfold reads; simpl; lia |].
      intros s Hs. inversion Hs.
    + apply (Hfb r w1 eq_refl). now rewrite Hd.
  - destruct (initializePage_rejected_run B m e w1 Hr) as (m' & -> & Hc & _).
    eexists. split; [exact Hc |]. simpl.
    split; [lia |]. split; [unfold reads; simpl; lia |].
    intros s Hs. inversion Hs.
Qed.

End MoreInitialisation.

(** ** More on the on-demand analysis *)
Section MoreOnDemand.

Context {W : Type} (B : Backend W) (unicode : JsString.CaseMapping).

Import JsString.

Local Abbreviation toUpperCase := (upper_of unicode).

(** X12.  [analyzeStock] never throws, whatever the services do: every run
    completes normally, leaves the loading flag alone, and ends with the
    analyzing flag cleared unless the text was blank and nothing ran. *)
Theorem analyzeStock_never_throws (m : Machine W) :
  exists m',
    analyzeStock B unicode m = (Fulfilled tt, m') /\
    loading (page m') = loading (page m) /\
    analyzing (page m')
    = if truthy (trim (searchSymbol (page m))) then false
      else analyzing (page m).
Proof.
  destruct (truthy (trim (searchSymbol (page m)))) eqn:Ht.
  - destruct (resolveSymbol_run B unicode (searchSymbol (page m)) (analyzing_started m))
      as (sym & m2 & q & Hres & _).
    destruct (analysis B sym (world m2)) as [out w3] eqn:Hout.
    destruct (analyzeStock_dispatched_run B unicode m m2 sym out w3 Ht Hres Hout)
      as (m' & Hrun & _ & Ha & Hl & _).
    exists m'. repeat split; assumption.
  - exists m. unfold analyzeStock. rewrite Ht. repeat split.
Qed.

(** X13.  On a text that is not blank [analyzeStock] requests exactly one
    analysis.  Whatever else it calls is in this order: a search, if any,
    before the analysis; the read of the table and the quote request, if
    any, after it. *)
Theorem analyzeStock_dispatches_once (m : Machine W) :
  truthy (trim (searchSymbol (page m))) = true ->
  exists sym before after,
    calls (snd (analyzeStock B unicode m))
    = calls m ++ before ++ [InvokeAnalysis sym] ++ after /\
    (before = [] \/ before = [InvokeSearch (searchSymbol (page m))]) /\
    analysis_requests after = [] /\ search_requests after = [] /\
    (reads after <= 1)%nat.
Proof.
  intros Ht.
  destruct (resolveSymbol_run B unicode (searchSymbol (page m)) (analyzing_started m))
    as (sym & m2 & before & Hres & _ & Hc2 & Hb).
  destruct (analysis B sym (world m2)) as [out w3] eqn:Hout.
  destruct (analyzeStock_dispatched_run B unicode m m2 sym out w3 Ht Hres Hout)
    as (m' & -> & Hc & _).
  simpl. eexists sym, before, _.
  split; [rewrite Hc, Hc2, <- app_assoc; reflexivity |].
  split; [exact Hb |].
  destruct out as [[d|e]|e];
    [| repeat split; unfold reads; simpl; lia ..].
  change (SelectPredictions :: ?l) with ([SelectPredictions] ++ l).
  rewrite analysis_requests_app, search_requests_app, reads_app,
    analysis_requests_enrichment, search_requests_enrichment, reads_enrichment.
  repeat split. unfold reads. simpl. lia.
Qed.

(** X14.  When the analysis call succeeds, [analyzeStock] clears the search
    box whether or not the refresh that follows can read the table; the
    page then shows what the refresh delivered, or its old list if the
    read failed. *)
Theorem analyzeStock_success_clears_search_box
        (m m2 : Machine W) (sym : string) (d : option Json) (w3 : W) :
  truthy (trim (searchSymbol (page m))) = true ->
  resolveSymbol B unicode (searchSymbol (page m)) (analyzing_started m)
    = (Fulfilled sym, m2) ->
  analysis B sym (world m2) = (Fulfilled (Success d), w3) ->
  exists m' after,
    analyzeStock B unicode m = (Fulfilled tt, m') /\
    searchSymbol (page m') = EmptyString /\
    predictions (page m')
    = default (predictions (page m)) (delivered (fst (select_predictions B w3))) /\
    calls m' = calls m2 ++ InvokeAnalysis sym :: after /\
    reads after = 1%nat.
Proof.
  intros Ht Hres Hout.
  destruct (analyzeStock_dispatched_run B unicode m m2 sym _ w3 Ht Hres Hout)
    as (m' & Hrun & Hc & _ & _ & Hs & Hps).
  eexists m', _.
  split; [exact Hrun |]. split; [exact Hs |]. split; [exact Hps |].
  split; [exact Hc |].
  change (SelectPredictions :: ?l) with ([SelectPredictions] ++ l).
  now rewrite reads_app, reads_enrichment.
Qed.

Lemma upper_is_letter (c : ascii) : isUpperAZ (upperChar c) = isLetter c.
Proof. destruct c as [[] [] [] [] [] [] [] []]; reflexivity. Qed.

Lemma all_upper_letters (s : string) :
  all isUpperAZ (asciiUpper s) = all isLetter s.
Proof.
  induction s as [|c s IH]; simpl; [reflexivity |].
  now rewrite upper_is_letter, IH.
Qed.

(** X15.  A text that the host upper-cases as Basic Latin ([a] to [z] to
    [A] to [Z], every other character kept, as it does every text of ASCII
    characters) is taken for a symbol exactly when it is one to five
    letters of either case, with nothing around them: then no search is
    made and the symbol is the upper-cased text; any other such text, as a
    symbol with a space, a digit or a dot, is sent as it is to the
    search. *)
Theorem resolveSymbol_searches_unless_letters (s : string) (m : Machine W) :
  toUpperCase s = asciiUpper s ->
  exists sym m',
    resolveSymbol B unicode s m = (Fulfilled sym, m') /\
    if letters_1_5 s then sym = asciiUpper s /\ m' = m
    else calls m' = calls m ++ [InvokeSearch s] /\ page m' = page m.
Proof.
  intros Hup.
  assert (Hl : test_A_Z_1_5 (toUpperCase s) = letters_1_5 s).
  { rewrite Hup. unfold test_A_Z_1_5, letters_1_5.
    now rewrite length_asciiUpper, all_upper_letters. }
  destruct (letters_1_5 s) eqn:E.
  - exists (asciiUpper s), m.
    rewrite (resolveSymbol_canonical B unicode s m Hl), Hup. repeat split.
  - destruct (resolveSymbol_search B unicode s m Hl) as (m' & Hr & Hp & _ & Hc).
    eexists _, m'. split; [exact Hr |]. split; [exact Hc | exact Hp].
Qed.

End MoreOnDemand.

(** ** More on today's symbols *)
Section MoreRotation.

Import JsDate.

(** X16.  On a host whose clock is not before the epoch and whose standard
    offset is within a day, with or without daylight-saving time, every
    instant has a group: the index stays inside the table, and the group
    has three symbols. *)
Theorem todaysTrending_always_a_group_of_three (tz : TimeZone) (t : Z) :
  sane_host tz t ->
  exists group,
    todaysTrending tz t = Some group /\
    group ∈ allTrendingStocks /\
    length group = 3%nat.
Proof.
  intros H. destruct (todaysTrending_in_bounds tz t H) as (group & Hg & Hin).
  exists group. split; [exact Hg |]. split; [exact Hin |].
  now apply allTrendingStocks_groups.
Qed.

(** In a zone without daylight-saving time, from 1970 on, the day number
    is the day of the local year, counted from 1. *)
Lemma dayOfYear_fixedZone_recent (offset t : Z) :
  (0 <= t + offset)%Z ->
  dayOfYear (fixedZone offset) t
  = (Day (t + offset) - DayFromYear (YearFromTime (t + offset)) + 1)%Z /\
  (1 <= dayOfYear (fixedZone offset) t <= 366)%Z.
Proof.
  intros Ht. pose proof (dayOfYear_fixedZone offset t) as Hd. cbv zeta in Hd.
  assert (Hy : (1969 <= YearFromTime (t + offset))%Z)
    by (apply YearFromTime_recent; unfold msPerDay; lia).
  replace ((0 <=? YearFromTime (t + offset))%Z && (YearFromTime (t + offset) <=? 99)%Z)
    with false in Hd
    by (symmetry; apply andb_false_iff; right; apply Z.leb_gt; lia).
  split; [exact Hd |]. rewrite Hd.
  pose proof (YearFromTime_spec (t + offset)) as Hs.
  pose proof (DayFromYear_step (YearFromTime (t + offset))) as Hstep. lia.
Qed.

(** X17.  In a zone without daylight-saving time the groups rotate day by
    day: when an instant and the instant 24 hours later are in the same
    local year (from 1970 on), the later one gets the next entry of the
    table, and the first entry after the last. *)
Theorem todaysTrending_fixedZone_next_day (offset t : Z) :
  (0 <= t + offset)%Z ->
  YearFromTime (t + msPerDay + offset) = YearFromTime (t + offset) ->
  exists i : Z,
    (0 <= i < 5)%Z /\
    todaysTrending (fixedZone offset) t = index allTrendingStocks i /\
    todaysTrending (fixedZone offset) (t + msPerDay)
    = index allTrendingStocks ((i + 1) mod 5)%Z.
Proof.
  intros Ht Hy.
  destruct (dayOfYear_fixedZone_recent offset t Ht) as [Hd1 Hb1].
  destruct (dayOfYear_fixedZone_recent offset (t + msPerDay)) as [Hd2 Hb2];
    [unfold msPerDay; lia |].
  rewrite Hy in Hd2.
  assert (Hnext : dayOfYear (fixedZone offset) (t + msPerDay)
                  = (dayOfYear (fixedZone offset) t + 1)%Z).
  { rewrite Hd1, Hd2. unfold Day.
    replace (t + msPerDay + offset)%Z with (t + offset + 1 * msPerDay)%Z by lia.
    rewrite Z.div_add by (unfold msPerDay; lia). lia. }
  exists (dayOfYear (fixedZone offset) t mod 5)%Z.
  split; [apply Z.mod_pos_bound; lia |].
  unfold todaysTrending.
  change (Z.of_nat (length allTrendingStocks)) with 5%Z.
  rewrite Hnext, !Z.rem_mod_nonneg by lia.
  split; [reflexivity |]. now rewrite Zplus_mod_idemp_l.
Qed.

End MoreRotation.

(** ** Cold starts on one day *)
Section SameDay.

Context {W : Type} (B : Backend W).

(** X18.  On a host without daylight-saving time, two initialisations that
    find the table empty at two instants of one local day request the
    analysis of the same symbols, in the same order. *)
Theorem initializePage_same_day_same_dispatches
        (offset : Z) (m1 m2 : Machine W)
        (d1 d2 : option (list Prediction)) (w1 w2 : W) :
  zone B = JsDate.fixedZone offset ->
  select_predictions B (world m1) = (Fulfilled (Success d1), w1) ->
  select_predictions B (world m2) = (Fulfilled (Success d2), w2) ->
  default [] d1 = [] -> default [] d2 = [] ->
  JsDate.Day (JsDate.LocalTime (zone B) (Date_now B w1))
  = JsDate.Day (JsDate.LocalTime (zone B) (Date_now B w2)) ->
  exists extra1 extra2,
    calls (snd (initializePage B m1)) = calls m1 ++ extra1 /\
    calls (snd (initializePage B m2)) = calls m2 ++ extra2 /\
    analysis_requests extra1 = analysis_requests extra2.
Proof.
  intros Hz Hr1 Hr2 Hd1 Hd2 Hday.
  assert (Hsame : todaysTrending (zone B) (Date_now B w1)
                  = todaysTrending (zone B) (Date_now B w2)).
  { rewrite Hz in *. now apply todaysTrending_fixedZone_same_day. }
  destruct (todaysTrending (zone B) (Date_now B w2)) as [group|] eqn:Hg.
  - destruct (initializePage_fallback_run B m1 (Success d1) w1 group Hr1 Hd1 Hsame)
      as (m1' & -> & Hc1 & _).
    destruct (initializePage_fallback_run B m2 (Success d2) w2 group Hr2 Hd2 Hg)
      as (m2' & -> & Hc2 & _).
    eexists (fallback_calls group _), (fallback_calls group _).
    split; [exact Hc1 |]. split; [exact Hc2 |].
    now rewrite !analysis_requests_fallback.
  - destruct (initializePage_no_group_run B m1 (Success d1) w1 Hr1 Hd1 Hsame)
      as (e1 & m1' & -> & Hc1 & _).
    destruct (initializePage_no_group_run B m2 (Success d2) w2 Hr2 Hd2 Hg)
      as (e2 & m2' & -> & Hc2 & _).
    eexists _, _. split; [exact Hc1 |]. split; [exact Hc2 |]. reflexivity.
Qed.

End SameDay.

(** * The further properties on concrete inputs *)

(** 2025-07-01T01:40:00Z, with an empty table and no analysis succeeding. *)
Definition barren_at_dawn : Demo.World :=
  {| Demo.table := []; Demo.table_down := false;
     Demo.rejected_symbols := ["AMZN"; "NFLX"; "AMD"];
     Demo.crashing_symbols := [];
     Demo.live := Some []; Demo.found := None; Demo.clock := 1751334000000 |}.

(** Two quotes of [AAPL] in one answer: the later one is kept, and the
    quote of [TSLA] that the page held is gone. *)
Lemma fetchCurrentQuotes_last_quote_wins_witness :
  let B := Demo.backend Demo.utc in
  let m := Demo.boot Scenes.repeated (Demo.typed "") in
  let asked := ["AAPL"; "MSFT"; "__proto__"] in
  let qs := [Demo.quote "AAPL"; Demo.quote "__proto__"; Demo.quote "MSFT";
             Scenes.requote "AAPL"] in
  current_quotes B asked (world m)
    = (Fulfilled (Success (Some {| quotes := Some qs |})), Scenes.repeated) /\
  currentQuotes (page m) !! "TSLA" = Some (Demo.quote "TSLA") /\
  exists m',
    fetchCurrentQuotes B asked m = (Fulfilled tt, m') /\
    (forall l1 q l2,
        qs = l1 ++ q :: l2 ->
        q_symbol q <> "__proto__" ->
        (forall q', q' ∈ l2 -> q_symbol q' <> q_symbol q) ->
        currentQuotes (page m') !! q_symbol q = Some q) /\
    (forall k, (forall q, q ∈ qs -> q_symbol q <> k) ->
               currentQuotes (page m') !! k = None) /\
    currentQuotes (page m') !! "__proto__" = None.
Proof.
  split; [reflexivity |]. split; [reflexivity |].
  apply (fetchCurrentQuotes_last_quote_wins
           (Demo.backend Demo.utc) ["AAPL"; "MSFT"; "__proto__"]
           (Demo.boot Scenes.repeated (Demo.typed ""))
           [Demo.quote "AAPL"; Demo.quote "__proto__"; Demo.quote "MSFT";
            Scenes.requote "AAPL"]
           Scenes.repeated); reflexivity.
Defined.

(** The same call, run. *)
Example fetchCurrentQuotes_last_quote_wins_run :
  let m' := snd (fetchCurrentQuotes (Demo.backend Demo.utc)
                   ["AAPL"; "MSFT"; "__proto__"]
                   (Demo.boot Scenes.repeated (Demo.typed ""))) in
  currentQuotes (page m') !! "AAPL" = Some (Scenes.requote "AAPL") /\
  currentQuotes (page m') !! "MSFT" = Some (Demo.quote "MSFT") /\
  currentQuotes (page m') !! "__proto__" = None /\
  currentQuotes (page m') !! "TSLA" = None.
Proof. repeat split. Qed.

(** An answer without a [quotes] field. *)
Lemma fetchCurrentQuotes_no_quotes_empties_map_witness :
  let B := Scenes.answering (Some {| quotes := None |}) in
  let m := Demo.boot tt (Demo.typed "") in
  current_quotes B ["TSLA"] (world m)
    = (Fulfilled (Success (Some {| quotes := None |})), tt) /\
  currentQuotes (page m) !! "TSLA" = Some (Demo.quote "TSLA") /\
  exists m',
    fetchCurrentQuotes B ["TSLA"] m = (Fulfilled tt, m') /\
    currentQuotes (page m') = ∅.
Proof.
  split; [reflexivity |]. split; [reflexivity |].
  apply (fetchCurrentQuotes_no_quotes_empties_map
           (Scenes.answering (Some {| quotes := None |})) ["TSLA"]
           (Demo.boot tt (Demo.typed "")) {| quotes := None |} tt); reflexivity.
Defined.

(** An answer [{ data: null, error: null }]. *)
Lemma fetchCurrentQuotes_null_data_is_caught_witness :
  let B := Scenes.answering None in
  let m := Demo.boot tt (Demo.typed "") in
  current_quotes B ["TSLA"] (world m) = (Fulfilled (Success None), tt) /\
  exists m' msg,
    fetchCurrentQuotes B ["TSLA"] m = (Fulfilled tt, m') /\
    page m' = page m /\
    console m' = console m
                   ++ [ConsoleError [Text "Error fetching current quotes:";
                                     Thrown (TypeError msg)]].
Proof.
  split; [reflexivity |].
  apply (fetchCurrentQuotes_null_data_is_caught
           (Scenes.answering None) ["TSLA"] (Demo.boot tt (Demo.typed "")) tt);
    reflexivity.
Defined.

(** Two symbols, each once. *)
Lemma spread_Set_keeps_distinct_list_witness :
  NoDup ["AAPL"; "MSFT"] /\ spread_Set ["AAPL"; "MSFT"] = ["AAPL"; "MSFT"].
Proof.
  assert (H : NoDup ["AAPL"; "MSFT"])
    by (apply (bool_decide_unpack _); vm_compute; exact I).
  split; [exact H |].
  apply (spread_Set_keeps_distinct_list ["AAPL"; "MSFT"] H).
Defined.

(** A refresh while the table cannot be read. *)
Lemma fetchPredictions_failure_keeps_page_witness :
  let B := Demo.backend Demo.utc in
  let m := Demo.boot Demo.unreadable (Demo.typed "") in
  failure (fst (select_predictions B (world m)))
    = Some (ServiceError "relation unavailable") /\
  exists m',
    fetchPredictions B m = (Fulfilled tt, m') /\
    page m' = page m /\
    calls m' = calls m ++ [SelectPredictions].
Proof.
  split; [reflexivity |].
  apply (fetchPredictions_failure_keeps_page
           (Demo.backend Demo.utc) (Demo.boot Demo.unreadable (Demo.typed ""))
           (ServiceError "relation unavailable")); reflexivity.
Defined.

(** A refresh that finds the table empty while the page shows [TSLA]. *)
Lemma fetchPredictions_empty_keeps_quotes_witness :
  let B := Demo.backend Demo.utc in
  let m := Demo.boot Demo.barren (Demo.typed "") in
  select_predictions B (world m) = (Fulfilled (Success (Some [])), Demo.barren) /\
  currentQuotes (page m) !! "TSLA" = Some (Demo.quote "TSLA") /\
  exists m',
    fetchPredictions B m = (Fulfilled tt, m') /\
    predictions (page m') = [] /\
    currentQuotes (page m') = currentQuotes (page m) /\
    calls m' = calls m ++ [SelectPredictions].
Proof.
  split; [reflexivity |]. split; [reflexivity |].
  apply (fetchPredictions_empty_keeps_quotes
           (Demo.backend Demo.utc) (Demo.boot Demo.barren (Demo.typed ""))
           (Some []) Demo.barren); reflexivity.
Defined.

(** A refresh that reads three predictions over two symbols. *)
Lemma fetchPredictions_requests_the_symbols_shown_witness :
  let B := Demo.backend Demo.utc in
  let m := Demo.boot Demo.warm (Demo.typed "") in
  let p := Demo.forecast "AAPL" in
  let ps := [Demo.forecast "MSFT"; Demo.forecast "AAPL"] in
  select_predictions B (world m) = (Fulfilled (Success (Some (p :: ps))), Demo.warm) /\
  exists m' symbols,
    fetchPredictions B m = (Fulfilled tt, m') /\
    predictions (page m') = p :: ps /\
    calls m' = calls m ++ [SelectPredictions; InvokeQuotes symbols] /\
    NoDup symbols /\
    (forall s, s ∈ symbols <-> exists q, q ∈ p :: ps /\ symbol q = s) /\
    (length symbols <= length (p :: ps))%nat.
Proof.
  split; [reflexivity |].
  apply (fetchPredictions_requests_the_symbols_shown
           (Demo.backend Demo.utc) (Demo.boot Demo.warm (Demo.typed ""))
           (Demo.forecast "AAPL") [Demo.forecast "MSFT"; Demo.forecast "AAPL"]
           Demo.warm); reflexivity.
Defined.

(** A first read that finds three predictions. *)
Lemma initializePage_reuses_existing_predictions_witness :
  let B := Demo.backend Demo.utc in
  let m := Demo.boot Demo.warm mounted in
  let p := Demo.forecast "AAPL" in
  let ps := [Demo.forecast "MSFT"; Demo.forecast "AAPL"] in
  select_predictions B (world m) = (Fulfilled (Success (Some (p :: ps))), Demo.warm) /\
  exists m',
    initializePage B m = (Fulfilled tt, m') /\
    calls m' = calls m ++ [SelectPredictions; InvokeQuotes ["AAPL"; "MSFT"]] /\
    predictions (page m') = p :: ps /\
    world m' = snd (current_quotes B ["AAPL"; "MSFT"] Demo.warm).
Proof.
  split; [reflexivity |].
  apply (initializePage_reuses_existing_predictions
           (Demo.backend Demo.utc) (Demo.boot Demo.warm mounted)
           (Success (Some [Demo.forecast "AAPL"; Demo.forecast "MSFT";
                           Demo.forecast "AAPL"]))
           Demo.warm (Demo.forecast "AAPL")
           [Demo.forecast "MSFT"; Demo.forecast "AAPL"]); reflexivity.
Defined.

(** [apple inc]: a search, the analysis of the hit, the refresh. *)
Lemma analyzeStock_dispatches_once_witness :
  let B := Demo.backend Demo.utc in
  let m := Demo.boot Demo.cold (Demo.typed "apple inc") in
  JsString.truthy (JsString.trim (searchSymbol (page m))) = true /\
  calls (snd (analyzeStock B latin1 m))
  = [InvokeSearch "apple inc"; InvokeAnalysis "AAPL"; SelectPredictions;
     InvokeQuotes ["AAPL"]] /\
  exists sym before after,
    calls (snd (analyzeStock B latin1 m))
    = calls m ++ before ++ [InvokeAnalysis sym] ++ after /\
    (before = [] \/ before = [InvokeSearch (searchSymbol (page m))]) /\
    analysis_requests after = [] /\ search_requests after = [] /\
    (reads after <= 1)%nat.
Proof.
  split; [reflexivity |]. split; [reflexivity |].
  apply (analyzeStock_dispatches_once
           (Demo.backend Demo.utc) latin1
           (Demo.boot Demo.cold (Demo.typed "apple inc")));
    reflexivity.
Defined.

(** [aapl] is analysed but the table cannot be read afterwards: the search
    box is cleared and the page keeps its prediction of [TSLA]. *)
Lemma analyzeStock_success_clears_search_box_witness :
  let B := Demo.backend Demo.utc in
  let m := Demo.boot Demo.unreadable (Demo.typed "aapl") in
  let w3 := Demo.with_table Demo.unreadable [Demo.forecast "AAPL"] in
  JsString.truthy (JsString.trim (searchSymbol (page m))) = true /\
  resolveSymbol B latin1 (searchSymbol (page m)) (analyzing_started m)
    = (Fulfilled "AAPL", analyzing_started m) /\
  analysis B "AAPL" (world (analyzing_started m))
    = (Fulfilled (Success (Some JNull)), w3) /\
  delivered (fst (select_predictions B w3)) = None /\
  exists m' after,
    analyzeStock B latin1 m = (Fulfilled tt, m') /\
    searchSymbol (page m') = EmptyString /\
    predictions (page m')
    = default (predictions (page m)) (delivered (fst (select_predictions B w3))) /\
    calls m' = calls (analyzing_started m) ++ InvokeAnalysis "AAPL" :: after /\
    reads after = 1%nat.
Proof.
  split; [reflexivity |]. split; [reflexivity |].
  split; [reflexivity |]. split; [reflexivity |].
  apply (analyzeStock_success_clears_search_box
           (Demo.backend Demo.utc) latin1
           (Demo.boot Demo.unreadable (Demo.typed "aapl"))
           (analyzing_started (Demo.boot Demo.unreadable (Demo.typed "aapl")))
           "AAPL" (Some JNull)
           (Demo.with_table Demo.unreadable [Demo.forecast "AAPL"])); reflexivity.
Defined.

(** Texts that are and are not taken for a symbol. *)
Example letters_1_5_examples :
  letters_1_5 "aapl" = true /\ letters_1_5 "GoOgL" = true /\
  letters_1_5 " aapl" = false /\ letters_1_5 "brk.b" = false /\
  letters_1_5 "googl1" = false /\ letters_1_5 "" = false.
Proof. repeat split. Qed.

(** [ aapl], with a space before it, is sent to the search as it is. *)
Lemma resolveSymbol_searches_unless_letters_witness :
  let B := Demo.backend Demo.utc in
  let m := Demo.boot Demo.warm (Demo.typed " aapl") in
  JsString.upper_of latin1 " aapl" = JsString.asciiUpper " aapl" /\
  letters_1_5 " aapl" = false /\
  exists sym m',
    resolveSymbol B latin1 " aapl" m = (Fulfilled sym, m') /\
    if letters_1_5 " aapl" then sym = JsString.asciiUpper " aapl" /\ m' = m
    else calls m' = calls m ++ [InvokeSearch " aapl"] /\ page m' = page m.
Proof.
  split; [reflexivity |]. split; [reflexivity |].
  apply (resolveSymbol_searches_unless_letters
           (Demo.backend Demo.utc) latin1 " aapl"
           (Demo.boot Demo.warm (Demo.typed " aapl"))); reflexivity.
Defined.

(** U+00DF upper-cases to [SS]: the text is taken for that symbol, without
    a search.  U+00E9 upper-cases to U+00C9: [caf] and it are searched for,
    and without a hit the symbol is the upper-cased text. *)
Example resolveSymbol_beyond_ascii :
  let eszett := String (ascii_of_nat 195) (String (ascii_of_nat 159) "") in
  let cafe := String.append "caf"
                (String (ascii_of_nat 195) (String (ascii_of_nat 169) "")) in
  let CAFE := String.append "CAF"
                (String (ascii_of_nat 195) (String (ascii_of_nat 137) "")) in
  resolveSymbol (Demo.backend Demo.utc) latin1 eszett
    (Demo.boot Demo.warm (Demo.typed eszett))
  = (Fulfilled "SS", Demo.boot Demo.warm (Demo.typed eszett)) /\
  JsString.jsLength cafe = 4%nat /\
  resolveSymbol (Demo.backend Demo.utc) latin1 cafe
    (Demo.boot Demo.warm (Demo.typed cafe))
  = (Fulfilled CAFE,
     {| page := Demo.typed cafe; world := Demo.warm;
        calls := [InvokeSearch cafe]; console := [] |}).
Proof. repeat split. Qed.

(** New York, half past midnight on 1 July 2025. *)
Lemma todaysTrending_always_a_group_of_three_witness :
  sane_host JsDate.newYork2025 1751344200000 /\
  exists group,
    todaysTrending JsDate.newYork2025 1751344200000 = Some group /\
    group ∈ allTrendingStocks /\
    length group = 3%nat.
Proof.
  assert (H : sane_host JsDate.newYork2025 1751344200000)
    by (unfold sane_host; simpl; unfold JsDate.msPerDay, JsDate.msPerHour; lia).
  split; [exact H |].
  apply (todaysTrending_always_a_group_of_three
           JsDate.newYork2025 1751344200000 H).
Defined.

(** UTC, 1 and 2 July 2025 at 16:00: the third group, then the fourth. *)
Lemma todaysTrending_fixedZone_next_day_witness :
  (0 <= Demo.noon + 0)%Z /\
  JsDate.YearFromTime (Demo.noon + JsDate.msPerDay + 0)
  = JsDate.YearFromTime (Demo.noon + 0) /\
  todaysTrending (JsDate.fixedZone 0) Demo.noon = Some ["AMZN"; "NFLX"; "AMD"] /\
  todaysTrending (JsDate.fixedZone 0) (Demo.noon + JsDate.msPerDay)
  = Some ["BABA"; "TSM"; "ASML"] /\
  exists i : Z,
    (0 <= i < 5)%Z /\
    todaysTrending (JsDate.fixedZone 0) Demo.noon = index allTrendingStocks i /\
    todaysTrending (JsDate.fixedZone 0) (Demo.noon + JsDate.msPerDay)
    = index allTrendingStocks ((i + 1) mod 5)%Z.
Proof.
  split; [unfold Demo.noon; lia |]. split; [reflexivity |].
  split; [reflexivity |]. split; [reflexivity |].
  apply (todaysTrending_fixedZone_next_day 0 Demo.noon);
    [unfold Demo.noon; lia | reflexivity].
Defined.

(** UTC, 1 July 2025: an initialisation at 01:40 and one at 16:00. *)
Lemma initializePage_same_day_same_dispatches_witness :
  let B := Demo.backend Demo.utc in
  let m1 := Demo.boot barren_at_dawn mounted in
  let m2 := Demo.boot Demo.cold mounted in
  Date_now B barren_at_dawn <> Date_now B Demo.cold /\
  JsDate.Day (JsDate.LocalTime (zone B) (Date_now B barren_at_dawn))
  = JsDate.Day (JsDate.LocalTime (zone B) (Date_now B Demo.cold)) /\
  analysis_requests (calls (snd (initializePage B m1))) = ["AMZN"; "NFLX"; "AMD"] /\
  exists extra1 extra2,
    calls (snd (initializePage B m1)) = calls m1 ++ extra1 /\
    calls (snd (initializePage B m2)) = calls m2 ++ extra2 /\
    analysis_requests extra1 = analysis_requests extra2.
Proof.
  split; [discriminate |]. split; [reflexivity |]. split; [reflexivity |].
  apply (initializePage_same_day_same_dispatches
           (Demo.backend Demo.utc) 0
           (Demo.boot barren_at_dawn mounted) (Demo.boot Demo.cold mounted)
           (Some []) (Some []) barren_at_dawn Demo.cold); reflexivity.
Defined.
